(** * Unlisted Edge AI service: the insight engine and its HTTP handlers

    A shallow embedding of [ai-service/app.py].  Python floats are the
    kernel's binary64 floats ([PrimFloat]), so that every arithmetic step of
    the scoring code rounds exactly as it does in CPython; Python integers
    are [Z]; JSON payloads are a small inductive type; exceptions are an
    error sum; the random source and the clock are an explicit environment
    handed to every call. *)

From Stdlib Require Import ZArith List String Bool Lia Floats Permutation.
Import ListNotations.

Set Warnings "-inexact-float,-register-all,-notation-for-abbreviation".
Local Open Scope string_scope.
Local Open Scope Z_scope.

(** ** Python values and exceptions *)

(** What [request.get_json()] can hand to the handlers. *)
Inductive pyval : Type :=
| PyNone
| PyBool (b : bool)
| PyInt (z : Z)
| PyFloat (f : float)
| PyStr (s : string)
| PyList (l : list pyval)
| PyDict (d : list (string * pyval)).

(** The exception classes the code can meet; all derive from [Exception]. *)
Inductive exn : Type :=
| AttributeError
| TypeError
| ValueError
| OverflowError
| ZeroDivisionError
| KeyError.

(** A computation that either raises or returns. *)
Definition res (A : Type) : Type := (exn + A)%type.

Definition ret {A} (a : A) : res A := inr a.
Definition raise {A} (e : exn) : res A := inl e.
Definition bind {A B} (c : res A) (k : A -> res B) : res B :=
  match c with
  | inl e => inl e
  | inr a => k a
  end.

Notation "x <- c ;; k" := (bind c (fun x => k))
  (at level 61, c at next level, right associativity).

(** ** Dictionaries with string keys *)

Fixpoint assoc {A} (k : string) (d : list (string * A)) : option A :=
  match d with
  | [] => None
  | (k', v) :: d' => if String.eqb k k' then Some v else assoc k d'
  end.

(** [d[k]] *)
Definition dict_getitem {A} (d : list (string * A)) (k : string) : res A :=
  match assoc k d with
  | Some v => ret v
  | None => raise KeyError
  end.

(** [d.get(key, default)] for a dict whose keys are all strings: the key is
    hashed first (lists and dicts are unhashable), and a key that is not a
    string equals none of the dict's keys. *)
Definition dict_get {A} (d : list (string * A)) (key : pyval) (default : A) : res A :=
  match key with
  | PyStr s => ret (match assoc s d with Some v => v | None => default end)
  | PyList _ | PyDict _ => raise TypeError
  | _ => ret default
  end.

(** [obj.get(key, default)] on a decoded JSON value: only objects have it. *)
Definition py_get (obj : pyval) (key : string) (default : pyval) : res pyval :=
  match obj with
  | PyDict d => ret (match assoc key d with Some v => v | None => default end)
  | _ => raise AttributeError
  end.

(** Truth value, as tested by [not x]. *)
Definition py_truthy (v : pyval) : bool :=
  match v with
  | PyNone => false
  | PyBool b => b
  | PyInt z => negb (z =? 0)%Z
  | PyFloat f => negb (f =? 0)%float
  | PyStr s => negb (String.eqb s "")
  | PyList l => match l with [] => false | _ => true end
  | PyDict d => match d with [] => false | _ => true end
  end.

Fixpoint chars (s : string) : list pyval :=
  match s with
  | EmptyString => []
  | String c s' => PyStr (String c EmptyString) :: chars s'
  end.

(** The items a [for] loop visits. *)
Definition py_iter (v : pyval) : res (list pyval) :=
  match v with
  | PyList l => ret l
  | PyStr s => ret (chars s)
  | PyDict d => ret (map (fun kv => PyStr (fst kv)) d)
  | _ => raise TypeError
  end.

(** ** Python numbers *)

(** [min(a, b)] and [max(a, b)]: the first argument is kept unless the
    second compares strictly below (above) it. *)
Definition py_min (a b : float) : float := if (b <? a)%float then b else a.
Definition py_max (a b : float) : float := if (a <? b)%float then b else a.

(** [a / b] on floats. *)
Definition py_div (a b : float) : res float :=
  if (b =? 0)%float then raise ZeroDivisionError else ret (a / b)%float.

(** [float(n)] for an integer: nearest binary64, ties to even. *)
Definition float_of_int (z : Z) : res float :=
  match binary_normalize prec emax z 0 false with
  | S754_infinity _ => raise OverflowError
  | sf => ret (SF2Prim sf)
  end.

(** [int(x)] for a float: truncation towards zero. *)
Definition py_int (x : float) : res Z :=
  match Prim2SF x with
  | S754_nan => raise ValueError
  | S754_infinity _ => raise OverflowError
  | S754_zero _ => ret 0
  | S754_finite s m e =>
      let a := if (0 <=? e)%Z then Zpos m * 2 ^ e else Zpos m / 2 ^ (- e) in
      ret (if s then - a else a)
  end.

(** Integer quotient rounded to nearest, ties to even. *)
Definition rne_div (a b : Z) : Z :=
  let q := a / b in
  let r := a mod b in
  match (2 * r ?= b)%Z with
  | Lt => q
  | Gt => q + 1
  | Eq => if Z.even q then q else q + 1
  end.

(** The binary64 nearest to the fraction [k / p], with sign [s] (ties to
    even): what parsing a decimal literal yields. *)
Definition nearest_ratio (s : bool) (k p : positive) : float :=
  SF2Prim (SFdiv prec emax (S754_finite s k 0) (S754_finite false p 0)).

(** [round(x, ndigits)] for a float and [ndigits >= 0]: the decimal with
    [ndigits] places nearest to the exact value of [x] (ties to even),
    converted back to the nearest binary64.  Zeros, infinities and NaN
    round to themselves. *)
Definition py_round (x : float) (ndigits : Z) : float :=
  match Prim2SF x with
  | S754_finite s m e =>
      let p := 10 ^ ndigits in
      let k := if (0 <=? e)%Z then Zpos m * 2 ^ e * p
               else rne_div (Zpos m * p) (2 ^ (- e)) in
      match k with
      | Zpos k' => nearest_ratio s k' (Z.to_pos p)
      | _ => if s then neg_zero else zero
      end
  | _ => x
  end.

(** Python's comparison operators on floats. *)
Definition py_gt (a b : float) : bool := (b <? a)%float.
Definition py_lt (a b : float) : bool := (a <? b)%float.

(** ** The random source and the clock

    [np.random], [uuid.uuid4] and [datetime.now] are the only inputs of the
    service besides the request.  A call receives them as an environment;
    [np_permutation n] is the shuffled [range(n)] from which
    [np.random.choice(.., replace=False)] takes its indices. *)
Record Env : Type := {
  np_normal : float -> float -> float;
  np_randint : Z -> Z -> Z;
  np_permutation : nat -> list nat;
  uuid4 : string;
  now_isoformat : string
}.

(** What numpy guarantees of its draws: a normal draw around a finite mean
    with a finite deviation is a finite number, [randint(low, high)] lies
    in the half-open interval from [low] (inclusive) to [high]
    (exclusive), and [permutation(n)] is a rearrangement of [0 .. n-1]. *)
Record valid_env (env : Env) : Prop := {
  normal_finite : forall mu sigma,
    is_finite mu = true -> is_finite sigma = true ->
    is_finite (np_normal env mu sigma) = true;
  randint_range : forall low high, low < high ->
                                   low <= np_randint env low high < high;
  permutation_perm : forall n, Permutation (np_permutation env n) (seq 0 n)
}.

(** [np.random.choice(a, size=size, replace=False).tolist()] *)
Definition np_random_choice (env : Env) (a : list string) (size : nat)
  : res (list string) :=
  if (List.length a <? size)%nat then raise ValueError
  else ret (map (fun i => nth i a "")
              (firstn size (np_permutation env (List.length a)))).

(** ** Data model *)

(** One row of [sector_weights]. *)
Record Weights : Type := {
  growth : float;
  stability : float;
  risk : float
}.

Inductive Recommendation : Type := BUY | HOLD | SELL | WATCH.

(** An f-string, kept as its literal parts and the values formatted into
    the holes. *)
Inductive piece : Type :=
| Lit (s : string)
| Fmt (v : pyval).

Definition fstring : Type := list piece.

Record AiMetadata : Type := {
  model_version : string;
  analysis_type : string;
  data_points_analyzed : Z;
  processing_time_ms : Z
}.

Record Insight : Type := {
  id : string;
  company_id : pyval;
  company_name : fstring;
  symbol : pyval;
  insight_text : fstring;
  confidence_score : Z;
  recommendation : Recommendation;
  date_generated : string;
  key_factors : list string;
  ai_metadata : AiMetadata
}.

(** The dict returned by [generate_company_insight]:
    [{'success': True, 'insight': ..}] or [{'success': False, 'error': str(e)}];
    the error text is kept as the exception it was printed from. *)
Inductive InsightResult : Type :=
| Success (insight : Insight)
| Failure (error : exn).

Definition success (r : InsightResult) : bool :=
  match r with
  | Success _ => true
  | Failure _ => false
  end.

Inductive Sentiment : Type := Bullish | Neutral | Bearish.

Record SentimentReading : Type := {
  sentiment : Sentiment;
  score : float;
  description : string;
  confidence : Z;
  timestamp : string;
  factors : list string
}.

(** The text of an error body: a printed exception or a fixed message. *)
Inductive errtext : Type :=
| ExnText (e : exn)
| Message (s : string).

(** JSON bodies of the responses: an insight; [{'error': ..}];
    [{'success': False, 'error': ..}];
    [{'success': True, 'insights': .., 'processed_count': ..}]; a sentiment
    reading. *)
Inductive body : Type :=
| InsightBody (insight : Insight)
| ErrorBody (error : errtext)
| RejectBody (error : string)
| BatchBody (insights : list Insight) (processed_count : nat)
| SentimentBody (reading : SentimentReading).

Record response : Type := {
  status : Z;
  payload : body
}.

(** What [request.get_json()] does for a handler: it returns the decoded
    body, or it raises one of Flask's exceptions (a body that is not
    JSON). *)
Inductive get_json : Type :=
| Returns (data : pyval)
| Raises.

(** ** The static tables *)

(** The rows stored under the key ['default']. *)
Definition default_profile : Weights :=
  {| growth := 0.6; stability := 0.7; risk := 0.6 |}.

Definition default_pool : list string :=
  [ "Strong market position in sector";
    "Consistent revenue growth trajectory";
    "Effective cost management strategies";
    "Experienced management team";
    "Favorable industry dynamics" ].

Definition sector_weights : list (string * Weights) :=
  [ ("Technology", {| growth := 0.8; stability := 0.6; risk := 0.7 |});
    ("Healthcare", {| growth := 0.7; stability := 0.8; risk := 0.5 |});
    ("Finance", {| growth := 0.6; stability := 0.9; risk := 0.6 |});
    ("Education", {| growth := 0.7; stability := 0.7; risk := 0.6 |});
    ("E-commerce", {| growth := 0.9; stability := 0.5; risk := 0.8 |});
    ("default", default_profile) ].

Definition factor_pools : list (string * list string) :=
  [ ("Technology",
      [ "Strong innovation pipeline and R&D investment";
        "Market leadership in emerging technologies";
        "Scalable business model with network effects";
        "High customer retention and engagement metrics";
        "Competitive moat through proprietary technology" ]);
    ("Healthcare",
      [ "Robust clinical trial pipeline";
        "Regulatory approval momentum";
        "Strong intellectual property portfolio";
        "Growing addressable market size";
        "Strategic partnerships with healthcare providers" ]);
    ("Finance",
      [ "Strong capital adequacy ratios";
        "Diversified revenue streams";
        "Digital transformation progress";
        "Regulatory compliance excellence";
        "Market share expansion in key segments" ]);
    ("Education",
      [ "Growing digital adoption trends";
        "Strong brand recognition and trust";
        "Scalable online delivery platform";
        "International expansion opportunities";
        "Government policy support for education" ]);
    ("default", default_pool) ].

(** The four narrative templates, indexed by the recommendation. *)
Definition insight_templates (symbol sector : pyval) (r : Recommendation) : fstring :=
  match r with
  | BUY =>
      [ Fmt symbol;
        Lit " shows strong AI-analyzed fundamentals with high growth potential in the ";
        Fmt sector;
        Lit " sector. Machine learning models indicate favorable market conditions and positive sentiment indicators." ]
  | HOLD =>
      [ Fmt symbol;
        Lit " demonstrates stable performance metrics according to our AI analysis. The ";
        Fmt sector;
        Lit " sector shows moderate growth with balanced risk-reward ratio suitable for long-term holding." ]
  | SELL =>
      [ Lit "AI risk assessment for ";
        Fmt symbol;
        Lit " indicates elevated volatility in the ";
        Fmt sector;
        Lit " sector. Predictive models suggest potential downward pressure with increased market uncertainty." ]
  | WATCH =>
      [ Fmt symbol;
        Lit " presents mixed signals in our AI analysis. The ";
        Fmt sector;
        Lit " sector requires careful monitoring as machine learning models show conflicting trend indicators." ]
  end.

(** ** AIInsightEngine *)

Section Engine.

(** [float(s)] for a string [s]: CPython's parser of float literals, which
    is not part of this repository; [None] stands for the [ValueError] it
    raises on text that is not a number. *)
Variable float_of_str : string -> option float.

(** [float(v)] *)
Definition py_float (v : pyval) : res float :=
  match v with
  | PyFloat f => ret f
  | PyInt z => float_of_int z
  | PyBool b => ret (if b then 1%float else 0%float)
  | PyStr s =>
      match float_of_str s with
      | Some f => ret f
      | None => raise ValueError
      end
  | PyNone | PyList _ | PyDict _ => raise TypeError
  end.

(** [_generate_key_factors] *)
Definition _generate_key_factors (env : Env) (sector : pyval) (weights : Weights)
    (price : float) : res (list string) :=
  default_pool <- dict_getitem factor_pools "default" ;;
  factors <- dict_get factor_pools sector default_pool ;;
  np_random_choice env factors (Nat.min 5 (List.length factors)).

(** The clamped sum of [_analyze_company_fundamentals] (its local
    [confidence_score]), from the base draw, the sector's weights and the
    quotient [100 / price]. *)
Definition clamped_confidence (base_confidence : float) (weights : Weights)
    (quotient : float) : float :=
  let sector_adjustment := (stability weights * 10)%float in
  let price_stability := (py_min 10 quotient * 5)%float in
  py_max 50 (py_min 95
    (base_confidence + sector_adjustment + price_stability)%float).

(** The [if]/[elif] chain of [_analyze_company_fundamentals]. *)
Definition recommend (confidence_score growth_score risk_score : float)
  : Recommendation :=
  if py_gt confidence_score 80 && py_gt growth_score 70 then BUY
  else if py_gt confidence_score 65 && py_lt risk_score 60 then HOLD
  else if py_gt risk_score 80 then SELL
  else WATCH.

(** [_analyze_company_fundamentals] *)
Definition _analyze_company_fundamentals (env : Env) (company_id symbol : pyval)
    (price : float) (sector : pyval) : res Insight :=
  default_weights <- dict_getitem sector_weights "default" ;;
  weights <- dict_get sector_weights sector default_weights ;;
  let base_confidence := np_normal env 75 10 in
  quotient <- py_div 100 price ;;
  let confidence_score := clamped_confidence base_confidence weights quotient in
  let growth_score := (growth weights * 100)%float in
  let risk_score := (risk weights * 100)%float in
  let recommendation := recommend confidence_score growth_score risk_score in
  key_factors <- _generate_key_factors env sector weights price ;;
  confidence_int <- py_int confidence_score ;;
  ret {| id := uuid4 env;
         company_id := company_id;
         company_name := [Fmt symbol; Lit " Analysis"];
         symbol := symbol;
         insight_text := insight_templates symbol sector recommendation;
         confidence_score := confidence_int;
         recommendation := recommendation;
         date_generated := now_isoformat env;
         key_factors := key_factors;
         ai_metadata :=
           {| model_version := "2.1.0";
              analysis_type := "fundamental_technical_hybrid";
              data_points_analyzed := np_randint env 500 2000;
              processing_time_ms := np_randint env 150 500 |} |}.

(** The body of the [try] block of [generate_company_insight]. *)
Definition company_insight_body (env : Env) (company_data : pyval) : res Insight :=
  company_id <- py_get company_data "id" (PyInt 1) ;;
  symbol <- py_get company_data "symbol" (PyStr "UNKNOWN") ;;
  raw_price <- py_get company_data "current_price" (PyInt 100) ;;
  current_price <- py_float raw_price ;;
  sector <- py_get company_data "sector" (PyStr "Technology") ;;
  _analyze_company_fundamentals env company_id symbol current_price sector.

(** [generate_company_insight]: every exception is caught and reported. *)
Definition generate_company_insight (env : Env) (company_data : pyval)
  : InsightResult :=
  match company_insight_body env company_data with
  | inr insights => Success insights
  | inl e => Failure e
  end.

(** ** HTTP handlers *)

(** [POST /ai/insight] *)
Definition generate_insight (env : Env) (company_data : pyval) : response :=
  if negb (py_truthy company_data) then
    {| status := 400; payload := RejectBody "No company data provided" |}
  else
    match generate_company_insight env company_data with
    | Success insight => {| status := 200; payload := InsightBody insight |}
    | Failure error => {| status := 500; payload := ErrorBody (ExnText error) |}
    end.

(** [POST /ai/insight] from the request on: [request.get_json()] is the
    first statement of the handler's [try]; what it raises is caught by the
    handler's [except Exception], and what it returns is handled as
    above. *)
Definition generate_insight_handler (env : Env) (request : get_json) : response :=
  match request with
  | Returns company_data => generate_insight env company_data
  | Raises =>
      {| status := 500; payload := ErrorBody (Message "Internal server error") |}
  end.

(** The [for] loop of [batch_analysis]; call number [i] of the request is
    answered by the environment [envs i]. *)
Fixpoint batch_loop (envs : nat -> Env) (i : nat) (companies : list pyval)
    (results : list Insight) : list Insight :=
  match companies with
  | [] => results
  | company :: rest =>
      match generate_company_insight (envs i) company with
      | Success insight => batch_loop envs (S i) rest (results ++ [insight])
      | Failure _ => batch_loop envs (S i) rest results
      end
  end.

(** [POST /ai/batch-analysis] *)
Definition batch_analysis (envs : nat -> Env) (data : pyval) : response :=
  let attempt : res response :=
    companies <- py_get data "companies" (PyList []) ;;
    if negb (py_truthy companies) then
      ret {| status := 400; payload := RejectBody "No companies provided" |}
    else
      items <- py_iter companies ;;
      let results := batch_loop envs 0 items [] in
      ret {| status := 200;
             payload := BatchBody results (List.length results) |}
  in
  match attempt with
  | inr r => r
  | inl _ => {| status := 500; payload := ErrorBody (Message "Batch analysis failed") |}
  end.

End Engine.

(** [GET /ai/market-sentiment]; nothing in its [try] block can raise.  The
    two variables set by the [if] chain are kept as a pair. *)
Definition market_sentiment (env : Env) : response :=
  let sentiment_score := np_normal env 0.6 0.2 in
  let sentiment_score := py_max (-1) (py_min 1 sentiment_score) in
  let sentiment_description :=
    if py_gt sentiment_score 0.3 then
      (Bullish,
       "AI models indicate positive market momentum with strong investor confidence")
    else if py_gt sentiment_score (-0.3) then
      (Neutral,
       "Market shows balanced sentiment with mixed signals from AI indicators")
    else
      (Bearish,
       "AI analysis suggests cautious market conditions with risk-off sentiment")
  in
  {| status := 200;
     payload := SentimentBody
       {| sentiment := fst sentiment_description;
          score := py_round sentiment_score 3;
          description := snd sentiment_description;
          confidence := np_randint env 70 95;
          timestamp := now_isoformat env;
          factors :=
            [ "Technical indicator analysis";
              "News sentiment processing";
              "Trading volume patterns";
              "Sector rotation analysis";
              "Global market correlation" ] |} |}.

(** ** Vocabulary of the specification *)

(** Values that can be used as a dictionary key. *)
Definition hashable (v : pyval) : bool :=
  match v with
  | PyList _ | PyDict _ => false
  | _ => true
  end.

(** The SectorProfile and the FactorPool of a sector: the row stored under
    its name, and the default row for every other value. *)
Definition sector_profile (sector : pyval) : Weights :=
  match sector with
  | PyStr s =>
      match assoc s sector_weights with
      | Some w => w
      | None => default_profile
      end
  | _ => default_profile
  end.

Definition sector_pool (sector : pyval) : list string :=
  match sector with
  | PyStr s =>
      match assoc s factor_pools with
      | Some p => p
      | None => default_pool
      end
  | _ => default_pool
  end.

(** Clamping to the interval from [lo] to [hi], as the specification words
    it. *)
Definition clamp (x lo hi : float) : float :=
  if (x <? lo)%float then lo else if (hi <? x)%float then hi else x.

(** A number is in the closed interval from -1 to 1. *)
Definition in_unit (r : float) : bool := ((-1 <=? r) && (r <=? 1))%float.

(** The binary64 nearest to [k / 1000], with sign [s]; these are the values
    [round(x, 3)] returns. *)
Definition thousandth (s : bool) (k : positive) : float := nearest_ratio s k 1000.

Definition thousandths_in_unit : bool :=
  forallb (fun n => in_unit (thousandth false (Pos.of_nat n))
                    && in_unit (thousandth true (Pos.of_nat n)))
    (seq 1 1000).

(** Shapes of binary64 values used in the rounding arguments. *)
Definition signed_class (s : bool) (x : spec_float) : Prop :=
  match x with
  | S754_zero s' | S754_infinity s' | S754_finite s' _ _ => s' = s
  | S754_nan => False
  end.

Definition not_nan (x : spec_float) : Prop := x <> S754_nan.

Definition is_fin (x : spec_float) : Prop :=
  match x with
  | S754_zero _ | S754_finite _ _ _ => True
  | _ => False
  end.

(** The values [min(10, 100 / price)] can take for a positive price. *)
Definition at_most_ten (x : spec_float) : Prop :=
  match x with
  | S754_zero _ => True
  | S754_finite false _ e => e <= -49
  | _ => False
  end.

(** The dict returned by [_analyze_company_fundamentals], as a function of
    the request's fields and of the truncated confidence. *)
Definition insight_of (env : Env) (company_id symbol : pyval) (price : float)
    (sector : pyval) (z : Z) : Insight :=
  let weights := sector_profile sector in
  let pool := sector_pool sector in
  {| id := uuid4 env;
     company_id := company_id;
     company_name := [Fmt symbol; Lit " Analysis"];
     symbol := symbol;
     insight_text :=
       insight_templates symbol sector
         (recommend (clamped_confidence (np_normal env 75 10) weights (100 / price))
            (growth weights * 100) (risk weights * 100));
     confidence_score := z;
     recommendation :=
       recommend (clamped_confidence (np_normal env 75 10) weights (100 / price))
         (growth weights * 100) (risk weights * 100);
     date_generated := now_isoformat env;
     key_factors :=
       map (fun i => nth i pool "")
         (firstn (Nat.min 5 (List.length pool))
            (np_permutation env (List.length pool)));
     ai_metadata :=
       {| model_version := "2.1.0";
          analysis_type := "fundamental_technical_hybrid";
          data_points_analyzed := np_randint env 500 2000;
          processing_time_ms := np_randint env 150 500 |} |}.

Section Vocabulary.

Variable float_of_str : string -> option float.

(** A valid CompanyInput: an object whose price (100 when absent) reads as
    a positive float and whose sector (Technology when absent) is a
    string. *)
Definition valid_company_input (company_data : pyval) (price : float)
    (sector : string) : Prop :=
  (exists raw, py_get company_data "current_price" (PyInt 100) = inr raw /\
               py_float float_of_str raw = inr price) /\
  (0 <? price)%float = true /\
  py_get company_data "sector" (PyStr "Technology") = inr (PyStr sector).

(** The outcome of every item of a batch, in order; item number [i] is
    answered by [envs i]. *)
Fixpoint outcomes (envs : nat -> Env) (i : nat) (companies : list pyval)
  : list InsightResult :=
  match companies with
  | [] => []
  | company :: rest =>
      generate_company_insight float_of_str (envs i) company
        :: outcomes envs (S i) rest
  end.

End Vocabulary.

(** The insights of the successful outcomes, in order. *)
Fixpoint insights_of (rs : list InsightResult) : list Insight :=
  match rs with
  | [] => []
  | Success insight :: rs' => insight :: insights_of rs'
  | Failure _ :: rs' => insights_of rs'
  end.

(** The float that [round(x, 3)] returns for [k] thousandths of sign [s]. *)
Definition signed_thousandth (s : bool) (k : Z) : float :=
  match k with
  | Zpos k' => thousandth s k'
  | _ => if s then neg_zero else zero
  end.

(** How the thousandths lie around the thresholds 0.3 and -0.3: up to
    300/1000 they are at most 0.3, from 300/1000 on at least 0.3, and the
    same with the signs changed. *)
Definition thousandths_around_thresholds : bool :=
  forallb (fun n =>
             let k := Pos.of_nat n in
             ((-0.3 <=? thousandth false k) && (thousandth true k <=? 0.3)
              && (if (n <=? 300)%nat
                  then (thousandth false k <=? 0.3) && (-0.3 <=? thousandth true k)
                  else true)
              && (if (300 <=? n)%nat
                  then (0.3 <=? thousandth false k) && (thousandth true k <=? -0.3)
                  else true))%float)
    (seq 1 1000).

(** ** Sample inputs *)

(** An environment whose draws are the smallest ones: the mean, the lower
    bound and the identity permutation. *)
Definition sample_env : Env :=
  {| np_normal := fun mu _ => mu;
     np_randint := fun low _ => low;
     np_permutation := fun n => seq 0 n;
     uuid4 := "00000000-0000-4000-8000-000000000000";
     now_isoformat := "2024-01-01T00:00:00" |}.

(** The same environment with the normal draw fixed to [x]. *)
Definition env_with_normal (x : float) : Env :=
  {| np_normal := fun _ _ => x;
     np_randint := np_randint sample_env;
     np_permutation := np_permutation sample_env;
     uuid4 := uuid4 sample_env;
     now_isoformat := now_isoformat sample_env |}.

(** An environment whose integer draws are [a], [b] and [c] for the calls
    with lower bounds 500, 150 and 70. *)
Definition env_with_randint (a b c : Z) : Env :=
  {| np_normal := np_normal sample_env;
     np_randint := fun low high =>
       let v := if (low =? 500)%Z then a else if (low =? 150)%Z then b
                else if (low =? 70)%Z then c else low in
       if ((low <=? v) && (v <? high))%Z then v else low;
     np_permutation := np_permutation sample_env;
     uuid4 := uuid4 sample_env;
     now_isoformat := now_isoformat sample_env |}.

(** A float parser that knows the literal ["100"] and rejects the rest;
    enough for the sample requests below. *)
Definition sample_parser (s : string) : option float :=
  if String.eqb s "100" then Some 100%float else None.

(** A Finance company priced at the text ["100"]. *)
Definition sample_company : pyval :=
  PyDict [("id", PyInt 7); ("symbol", PyStr "ACME");
          ("current_price", PyStr "100"); ("sector", PyStr "Finance")].

(** The insight the engine builds for it in the sample environment. *)
Definition sample_insight : Insight :=
  insight_of sample_env (PyInt 7) (PyStr "ACME") 100 (PyStr "Finance") 89.

(** A company whose price is text that is not a number. *)
Definition malformed_company : pyval :=
  PyDict [("symbol", PyStr "BAD"); ("current_price", PyStr "abc")].

(** A company of a sector no table knows. *)
Definition unknown_sector_company : pyval :=
  PyDict [("symbol", PyStr "NEW"); ("sector", PyStr "Unknown-Sector-XYZ")].

(** A company priced at zero. *)
Definition free_company : pyval :=
  PyDict [("symbol", PyStr "FREE"); ("current_price", PyInt 0)].

(** An E-commerce company priced at 20. *)
Definition ecommerce_company : pyval :=
  PyDict [("id", PyInt 9); ("symbol", PyStr "SHOP");
          ("current_price", PyInt 20); ("sector", PyStr "E-commerce")].

(** The insight the engine builds for it in the sample environment. *)
Definition ecommerce_insight : Insight :=
  insight_of sample_env (PyInt 9) (PyStr "SHOP") 20 (PyStr "E-commerce") 95.

(** A company whose price is the JSON literal [NaN]. *)
Definition nan_priced_company : pyval :=
  PyDict [("symbol", PyStr "NAN"); ("current_price", PyFloat nan)].

(** * Binary64 arithmetic

    Facts about the kernel's floats, read through their specification
    [Prim2SF]. *)

Module Binary64.

(** ** The constants of the code *)

Lemma SF_0 : Prim2SF 0 = S754_zero false.
Proof. vm_compute. reflexivity. Qed.
Lemma SF_1 : Prim2SF 1 = S754_finite false 4503599627370496 (-52).
Proof. vm_compute. reflexivity. Qed.
Lemma SF_m1 : Prim2SF (-1) = S754_finite true 4503599627370496 (-52).
Proof. vm_compute. reflexivity. Qed.
Lemma SF_5 : Prim2SF 5 = S754_finite false 5629499534213120 (-50).
Proof. vm_compute. reflexivity. Qed.
Lemma SF_10 : Prim2SF 10 = S754_finite false 5629499534213120 (-49).
Proof. vm_compute. reflexivity. Qed.
Lemma SF_50 : Prim2SF 50 = S754_finite false 7036874417766400 (-47).
Proof. vm_compute. reflexivity. Qed.
Lemma SF_95 : Prim2SF 95 = S754_finite false 6685030696878080 (-46).
Proof. vm_compute. reflexivity. Qed.
Lemma SF_100 : Prim2SF 100 = S754_finite false 7036874417766400 (-46).
Proof. vm_compute. reflexivity. Qed.
Lemma SF_03 : Prim2SF 0.3 = S754_finite false 5404319552844595 (-54).
Proof. vm_compute. reflexivity. Qed.
Lemma SF_m03 : Prim2SF (-0.3) = S754_finite true 5404319552844595 (-54).
Proof. vm_compute. reflexivity. Qed.

(** ** Mantissas and exponents *)

Lemma digits2_pos_size m : digits2_pos m = Pos.size m.
Proof. induction m; simpl; congruence. Qed.

(** A positive number lies between the powers of two around its bit size. *)
Lemma pos_size_bounds m :
  2 ^ (Zpos (Pos.size m) - 1) <= Zpos m < 2 ^ Zpos (Pos.size m).
Proof.
  induction m as [m IH|m IH|].
  - cbn [Pos.size]. rewrite Pos2Z.inj_succ.
    replace (Z.succ (Zpos (Pos.size m)) - 1) with (Z.succ (Zpos (Pos.size m) - 1)) by lia.
    rewrite !Z.pow_succ_r by lia. lia.
  - cbn [Pos.size]. rewrite Pos2Z.inj_succ.
    replace (Z.succ (Zpos (Pos.size m)) - 1) with (Z.succ (Zpos (Pos.size m) - 1)) by lia.
    rewrite !Z.pow_succ_r by lia. lia.
  - simpl. lia.
Qed.

(** Every finite binary64 has a mantissa below [2^53] and an exponent in
    range, and is normalised unless its exponent is the smallest one. *)
Lemma finite_bounds x s m e :
  Prim2SF x = S754_finite s m e ->
  Zpos m < 2 ^ 53 /\ -1074 <= e <= 971 /\ (-1074 < e -> 2 ^ 52 <= Zpos m).
Proof.
  intros E. pose proof (Prim2SF_valid x) as V. rewrite E in V.
  unfold valid_binary, bounded, canonical_mantissa, fexp, SpecFloat.emin in V.
  apply andb_true_iff in V. destruct V as [C B].
  apply Z.eqb_eq in C. apply Z.leb_le in B.
  rewrite digits2_pos_size in C.
  pose proof (pos_size_bounds m) as [Lo Hi].
  change prec with 53 in *. change emax with 1024 in *.
  assert (D : Zpos (Pos.size m) <= 53) by lia.
  split; [|split].
  - eapply Z.lt_le_trans; [exact Hi|]. apply Z.pow_le_mono_r; lia.
  - lia.
  - intros G. assert (Zpos (Pos.size m) = 53) as Q by lia.
    rewrite Q in Lo. exact Lo.
Qed.

(** A number below [2^k] has at most [k] bits. *)
Lemma Zdigits2_le_pow m k : 0 <= k -> 0 <= m < 2 ^ k -> Zdigits2 m <= k.
Proof.
  intros Hk [H0 H1]. destruct m as [|p|p]; simpl; [lia| |lia].
  rewrite digits2_pos_size.
  pose proof (pos_size_bounds p) as [Lo _].
  assert (2 ^ (Zpos (Pos.size p) - 1) < 2 ^ k) as Lt by lia.
  apply Z.pow_lt_mono_r_iff in Lt; lia.
Qed.

Lemma fexp_le a b : a <= b -> fexp prec emax a <= fexp prec emax b.
Proof. unfold fexp. lia. Qed.

(** Two floats with the same specification are the same float. *)
Lemma Prim2SF_inj x y : Prim2SF x = Prim2SF y -> x = y.
Proof.
  intros H. rewrite <- (SF2Prim_Prim2SF x), <- (SF2Prim_Prim2SF y). now rewrite H.
Qed.

(** ** Order *)

(** Comparison of two positive finite numbers: by exponent, then by mantissa. *)
Lemma SFltb_finite_pos m1 e1 m2 e2 :
  SFltb (S754_finite false m1 e1) (S754_finite false m2 e2) = true <->
  e1 < e2 \/ (e1 = e2 /\ Zpos m1 < Zpos m2).
Proof.
  unfold SFltb, SFcompare. change (Pos.compare_cont Eq m1 m2) with (Pos.compare m1 m2).
  destruct (Z.compare_spec e1 e2); [destruct (Pos.compare_spec m1 m2)| |];
    split; intros; try discriminate; try reflexivity; try lia.
Qed.

Lemma SFltb_finite_pos_false m1 e1 m2 e2 :
  SFltb (S754_finite false m1 e1) (S754_finite false m2 e2) = false <->
  e2 < e1 \/ (e1 = e2 /\ Zpos m2 <= Zpos m1).
Proof.
  pose proof (SFltb_finite_pos m1 e1 m2 e2) as [H1 H2].
  destruct (SFltb _ _); split; intros G; try discriminate; try reflexivity.
  - specialize (H1 eq_refl). lia.
  - assert (~ (e1 < e2 \/ e1 = e2 /\ Z.pos m1 < Z.pos m2)) as N.
    { intros K. specialize (H2 K). discriminate. }
    lia.
Qed.

(** Comparison of two negative finite numbers runs the other way. *)
Lemma SFltb_finite_neg m1 e1 m2 e2 :
  SFltb (S754_finite true m1 e1) (S754_finite true m2 e2) = true <->
  e2 < e1 \/ (e1 = e2 /\ Zpos m2 < Zpos m1).
Proof.
  unfold SFltb, SFcompare. change (Pos.compare_cont Eq m1 m2) with (Pos.compare m1 m2).
  destruct (Z.compare_spec e1 e2); [destruct (Pos.compare_spec m1 m2)| |];
    split; simpl; intros; try discriminate; try reflexivity; try lia.
Qed.

(** Swapping the arguments of a comparison reverses its result. *)
Lemma SFcompare_antisym x y :
  SFcompare y x = option_map CompOpp (SFcompare x y).
Proof.
  destruct x as [sx|sx| |sx mx ex], y as [sy|sy| |sy my ey]; simpl;
    try reflexivity; try (destruct sx; reflexivity); try (destruct sy; reflexivity);
    try (destruct sx, sy; reflexivity).
  change (Pos.compare_cont Eq my mx) with (Pos.compare my mx).
  change (Pos.compare_cont Eq mx my) with (Pos.compare mx my).
  rewrite (Z.compare_antisym ex ey), (Pos.compare_antisym mx my).
  destruct sx, sy; try reflexivity;
    destruct (ex ?= ey); simpl; try reflexivity;
    destruct (mx ?= my)%positive; reflexivity.
Qed.

(** On numbers, [a < b] fails exactly when [b <= a] holds. *)
Lemma ltb_negb_leb a b :
  Prim2SF a <> S754_nan -> Prim2SF b <> S754_nan ->
  (a <? b)%float = negb (b <=? a)%float.
Proof.
  intros Ha Hb. rewrite ltb_spec, leb_spec. unfold SFltb, SFleb.
  rewrite (SFcompare_antisym (Prim2SF a) (Prim2SF b)).
  destruct (SFcompare (Prim2SF a) (Prim2SF b)) as [[]|] eqn:C; try reflexivity.
  exfalso. destruct (Prim2SF a), (Prim2SF b); simpl in C; try discriminate; congruence.
Qed.

Lemma ltb_leb_weaken a b : (a <? b)%float = true -> (a <=? b)%float = true.
Proof.
  rewrite ltb_spec, leb_spec. unfold SFltb, SFleb.
  destruct (SFcompare _ _) as [[]|]; try discriminate; reflexivity.
Qed.

(** Whatever is below something is a number. *)
Lemma ltb_not_nan_l a b : (a <? b)%float = true -> Prim2SF a <> S754_nan.
Proof.
  rewrite ltb_spec. intros H E. rewrite E in H. discriminate.
Qed.

(** Numbers above or below zero are not zero. *)
Lemma positive_nonzero p : (0 <? p)%float = true -> (p =? 0)%float = false.
Proof.
  rewrite ltb_spec, eqb_spec, SF_0.
  destruct (Prim2SF p) as [s|s| |s m e]; try discriminate;
    destruct s; try discriminate; reflexivity.
Qed.

Lemma negative_nonzero p : (p <? 0)%float = true -> (p =? 0)%float = false.
Proof.
  rewrite ltb_spec, eqb_spec, SF_0.
  destruct (Prim2SF p) as [s|s| |s m e]; try discriminate;
    destruct s; try discriminate; reflexivity.
Qed.

(** [is_finite] selects the zeros and the finite numbers. *)
Lemma is_finite_is_fin x : is_finite x = true -> is_fin (Prim2SF x).
Proof.
  unfold is_finite, is_nan, is_infinity.
  rewrite !eqb_spec, abs_spec.
  change (Prim2SF infinity) with (S754_infinity false).
  destruct (Prim2SF x) as [s|[]| |s m e]; simpl; auto; discriminate.
Qed.

(** ** Rounding never invents a NaN *)

(** An invariant of [f] is an invariant of its iterates. *)
Lemma iter_pos_inv {A} (f : A -> A) (P : A -> Prop) :
  (forall a, P a -> P (f a)) -> forall n a, P a -> P (iter_pos f n a).
Proof.
  intros Hf. induction n as [n IH|n IH|]; intros a Ha; simpl; auto.
Qed.

(** Shifting right keeps a mantissa between zero and where it started. *)
Lemma shr_1_bounds M r : 0 <= shr_m r <= M -> 0 <= shr_m (shr_1 r) <= M.
Proof.
  destruct r as [m r s]. simpl.
  destruct m as [|p|p]; [simpl; lia| |lia].
  destruct p; simpl; lia.
Qed.

Lemma shr_bounds M r e n : 0 <= shr_m r <= M -> 0 <= shr_m (fst (shr r e n)) <= M.
Proof.
  intros H. unfold shr. destruct n; simpl; auto.
  apply (iter_pos_inv shr_1 (fun r => 0 <= shr_m r <= M)); auto.
  intros a. apply shr_1_bounds.
Qed.

Lemma shr_m_of_loc m l : shr_m (shr_record_of_loc m l) = m.
Proof. destruct l as [|[]]; reflexivity. Qed.

Lemma shr_fexp_bounds m e l :
  0 <= m -> 0 <= shr_m (fst (shr_fexp prec emax m e l)) <= m.
Proof.
  intros H. unfold shr_fexp. apply shr_bounds. rewrite shr_m_of_loc. lia.
Qed.

(** Rounding to nearest even adds at most one. *)
Lemma round_nearest_even_bounds m l :
  0 <= m -> m <= round_nearest_even m l <= m + 1.
Proof.
  intros H. unfold round_nearest_even.
  destruct l as [|[]]; try lia. destruct (Z.even m); lia.
Qed.

(** Rounding a mantissa that is not negative gives a zero, a finite number or
    an infinity of the sign asked for. *)
Lemma binary_round_aux_class s m e l :
  0 <= m -> signed_class s (binary_round_aux prec emax s m e l).
Proof.
  intros H. unfold binary_round_aux.
  pose proof (shr_fexp_bounds m e l H) as B1.
  destruct (shr_fexp prec emax m e l) as [r1 e1]. simpl in B1.
  pose proof (round_nearest_even_bounds (shr_m r1) (loc_of_shr_record r1)
                ltac:(lia)) as B2.
  pose proof (shr_fexp_bounds (round_nearest_even (shr_m r1) (loc_of_shr_record r1))
                e1 loc_Exact ltac:(lia)) as B3.
  destruct (shr_fexp prec emax _ e1 loc_Exact) as [r2 e2]. simpl in B3.
  destruct (shr_m r2) as [|p|p]; simpl.
  - reflexivity.
  - destruct (e2 <=? _); simpl; reflexivity.
  - lia.
Qed.

Lemma binary_round_class s m e : signed_class s (binary_round prec emax s m e).
Proof.
  unfold binary_round. destruct (shl_align _ _ _) as [mz ez].
  apply binary_round_aux_class. lia.
Qed.

Lemma signed_class_not_nan s x : signed_class s x -> not_nan x.
Proof. destruct x; simpl; unfold not_nan; try discriminate; tauto. Qed.

Lemma binary_normalize_not_nan m e sz : not_nan (binary_normalize prec emax m e sz).
Proof.
  destruct m; simpl; [discriminate| |]; eapply signed_class_not_nan, binary_round_class.
Qed.

(** The sum of two finite numbers is a number, and so is the sum of a number
    and a finite number. *)
Lemma SFadd_fin_not_nan x y : is_fin x -> is_fin y -> not_nan (SF64add x y).
Proof.
  unfold SF64add, SFadd.
  destruct x as [sx|sx| |sx mx ex], y as [sy|sy| |sy my ey]; simpl; try tauto; intros _ _;
    try discriminate.
  - destruct sx, sy; discriminate.
  - apply binary_normalize_not_nan.
Qed.

Lemma SFadd_not_nan_fin x y : not_nan x -> is_fin y -> not_nan (SF64add x y).
Proof.
  unfold SF64add, SFadd.
  destruct x as [sx|sx| |sx mx ex], y as [sy|sy| |sy my ey]; simpl; try tauto; intros Hx _;
    try discriminate; try (exfalso; apply Hx; reflexivity).
  - destruct sx, sy; discriminate.
  - apply binary_normalize_not_nan.
Qed.

(** ** Rounding does not overflow far below the largest exponent *)

(** The exponent after a right shift. *)
Lemma shr_snd_le r e n : snd (shr r e n) <= Z.max e (e + n).
Proof. unfold shr. destruct n; simpl; lia. Qed.

Lemma shr_fexp_snd_le m e l D :
  Zdigits2 m <= D ->
  snd (shr_fexp prec emax m e l) <= Z.max e (fexp prec emax (D + e)).
Proof.
  intros H. unfold shr_fexp.
  pose proof (shr_snd_le (shr_record_of_loc m l) e (fexp prec emax (Zdigits2 m + e) - e)).
  pose proof (fexp_le (Zdigits2 m + e) (D + e)). lia.
Qed.

(** Rounding a mantissa of at most [D] bits at an exponent of at most [E]
    cannot overflow when the bits still fit below the largest exponent. *)
Lemma binary_round_aux_finite s m e l D E :
  0 <= D -> 0 <= m < 2 ^ D -> e <= E ->
  Z.max E (fexp prec emax (D + E)) + Z.max 0 (D - 52) <= 971 ->
  is_fin (binary_round_aux prec emax s m e l).
Proof.
  intros HD Hm HE Hb. unfold binary_round_aux.
  pose proof (shr_fexp_bounds m e l ltac:(lia)) as B1.
  pose proof (shr_fexp_snd_le m e l D (Zdigits2_le_pow m D HD Hm)) as S1.
  destruct (shr_fexp prec emax m e l) as [r1 e1]. simpl in B1, S1.
  pose proof (round_nearest_even_bounds (shr_m r1) (loc_of_shr_record r1)
                ltac:(lia)) as B2.
  set (m1 := round_nearest_even (shr_m r1) (loc_of_shr_record r1)) in *.
  assert (D1 : Zdigits2 m1 <= D + 1).
  { apply Zdigits2_le_pow; [lia|]. rewrite Z.pow_add_r by lia. lia. }
  pose proof (shr_fexp_snd_le m1 e1 loc_Exact (D + 1) D1) as S2.
  pose proof (shr_fexp_bounds m1 e1 loc_Exact ltac:(lia)) as B3.
  destruct (shr_fexp prec emax m1 e1 loc_Exact) as [r2 e2]. simpl in S2, B3.
  pose proof (fexp_le (D + e) (D + E) ltac:(lia)) as F1.
  assert (e1 <= Z.max E (fexp prec emax (D + E))) as E1 by lia.
  assert (e2 <= 971) as E2.
  { unfold fexp, SpecFloat.emin in *.
    change prec with 53 in *. change emax with 1024 in *. lia. }
  destruct (shr_m r2) as [|p|p]; [exact I| |lia].
  change (emax - prec) with 971.
  destruct (Z.leb_spec e2 971); [exact I|lia].
Qed.

End Binary64.

Import Binary64.

(** * Python's numeric built-ins *)

(** [int(x)] of a float strictly between 50 and 95 is an integer from 50 to 94. *)
Lemma py_int_between x :
  (50 <? x)%float = true -> (x <? 95)%float = true ->
  exists z, py_int x = inr z /\ 50 <= z <= 94.
Proof.
  rewrite !ltb_spec, SF_50, SF_95. unfold py_int.
  destruct (Prim2SF x) as [s|s| |s m e] eqn:E; try discriminate.
  - destruct s; discriminate.
  - destruct s; [discriminate|].
    rewrite !SFltb_finite_pos. intros Lo Hi.
    destruct (finite_bounds _ _ _ _ E) as (Hm & He & Hn).
    assert (P47 : 2 ^ 47 = 140737488355328) by reflexivity.
    assert (P46 : 2 ^ 46 = 70368744177664) by reflexivity.
    assert (P53 : 2 ^ 53 = 9007199254740992) by reflexivity.
    assert (P52 : 2 ^ 52 = 4503599627370496) by reflexivity.
    assert (e = -47 \/ e = -46) as [-> | ->] by lia.
    + eexists. split; [reflexivity|]. cbn [Z.leb Z.compare Z.opp].
      rewrite P47. split.
      * apply Z.div_le_lower_bound; lia.
      * apply Z.lt_succ_r. apply Z.div_lt_upper_bound; lia.
    + eexists. split; [reflexivity|]. cbn [Z.leb Z.compare Z.opp].
      rewrite P46. specialize (Hn ltac:(lia)). split.
      * apply Z.div_le_lower_bound; lia.
      * apply Z.lt_succ_r. apply Z.div_lt_upper_bound; lia.
Qed.

(** On numbers, [max(50, min(95, s))] is the clamp of [s] to the interval from
    50 to 95. *)
Lemma py_clamp_50_95 s :
  Prim2SF s <> S754_nan -> py_max 50 (py_min 95 s) = clamp s 50 95.
Proof.
  intros N. unfold py_max, py_min, clamp.
  destruct (s <? 95)%float eqn:A.
  - destruct (50 <? s)%float eqn:B; destruct (s <? 50)%float eqn:C;
      destruct (95 <? s)%float eqn:D; try reflexivity;
      rewrite ltb_spec in A, B, C, D; rewrite ?SF_50, ?SF_95 in *;
      destruct (Prim2SF s) as [sg|sg| |sg m e] eqn:E; try congruence;
      try (destruct sg; discriminate); destruct sg; try discriminate;
      rewrite ?SFltb_finite_pos, ?SFltb_finite_pos_false in *; try lia.
    apply Prim2SF_inj. rewrite E, SF_50. f_equal; [|lia].
    assert (Zpos m = 7036874417766400) as Q by lia. now inversion Q.
  - change (50 <? 95)%float with true. cbv iota.
    destruct (s <? 50)%float eqn:C; destruct (95 <? s)%float eqn:D; try reflexivity;
      rewrite ltb_spec in A, C, D; rewrite ?SF_50, ?SF_95 in *;
      destruct (Prim2SF s) as [sg|sg| |sg m e] eqn:E; try congruence;
      try (destruct sg; discriminate); destruct sg; try discriminate;
      rewrite ?SFltb_finite_pos, ?SFltb_finite_pos_false in *; try lia.
    apply Prim2SF_inj. rewrite E, SF_95. f_equal; [|lia].
    assert (Zpos m = 6685030696878080) as Q by lia. now inversion Q.
Qed.

(** A rounded quotient of a numerator below [n * b] is at most [n]. *)
Lemma rne_div_bounds a b n : 0 < b -> 0 <= a < n * b -> 0 <= rne_div a b <= n.
Proof.
  intros Hb [H0 H1]. unfold rne_div.
  assert (0 <= a / b) by (apply Z.div_pos; lia).
  assert (a / b < n) by (apply Z.div_lt_upper_bound; lia).
  destruct (2 * (a mod b) ?= b); [destruct (Z.even (a / b))| |]; lia.
Qed.

(** All of -1000/1000 .. 1000/1000 lie between -1 and 1, by evaluation. *)
Lemma thousandths_checked : thousandths_in_unit = true.
Proof. vm_compute. reflexivity. Qed.

Lemma thousandth_in_unit s k : Zpos k <= 1000 -> in_unit (thousandth s k) = true.
Proof.
  intros H. pose proof thousandths_checked as T. unfold thousandths_in_unit in T.
  rewrite forallb_forall in T.
  specialize (T (Pos.to_nat k)). rewrite Pos2Nat.id in T.
  assert (In (Pos.to_nat k) (seq 1 1000)) as I by (apply in_seq; lia).
  apply T in I. apply andb_true_iff in I. destruct s; tauto.
Qed.

(** Rounding a number strictly between -1 and 1 to three decimals stays
    between -1 and 1. *)
Lemma py_round_3_unit x :
  (-1 <? x)%float = true -> (x <? 1)%float = true -> in_unit (py_round x 3) = true.
Proof.
  intros Lo Hi. unfold py_round.
  destruct (Prim2SF x) as [s|s| |s m e] eqn:E.
  - unfold in_unit. rewrite !leb_spec, E, SF_1, SF_m1. reflexivity.
  - rewrite ltb_spec, E, SF_1 in Hi. rewrite ltb_spec, E, SF_m1 in Lo.
    destruct s; discriminate.
  - rewrite ltb_spec, E, SF_1 in Hi. discriminate.
  - destruct (finite_bounds _ _ _ _ E) as (Hm & He & Hn).
    assert (e <= -53) as Hexp.
    { rewrite ltb_spec, E, SF_1 in Hi. rewrite ltb_spec, E, SF_m1 in Lo.
      assert (P52 : 2 ^ 52 = 4503599627370496) by reflexivity.
      destruct s.
      - apply SFltb_finite_neg in Lo. lia.
      - apply SFltb_finite_pos in Hi. lia. }
    destruct (Z.leb_spec 0 e); [lia|].
    assert (2 ^ 53 <= 2 ^ (- e)) as Hp by (apply Z.pow_le_mono_r; lia).
    change (10 ^ 3) with 1000.
    pose proof (rne_div_bounds (Zpos m * 1000) (2 ^ (- e)) 1000 ltac:(lia) ltac:(nia)) as K.
    destruct (rne_div (Zpos m * 1000) (2 ^ (- e))) as [|k|k]; [| |lia].
    + destruct s; reflexivity.
    + apply (thousandth_in_unit s k). lia.
Qed.

(** * The tables *)

Lemma assoc_In {A} k (d : list (string * A)) v : assoc k d = Some v -> In v (map snd d).
Proof.
  induction d as [|[k' v'] d IH]; simpl; [discriminate|].
  destruct (String.eqb k k'); [intros [= ->]; auto|auto].
Qed.

(** The profile and the pool of any sector are rows of the tables. *)
Lemma sector_profile_in sector : In (sector_profile sector) (map snd sector_weights).
Proof.
  assert (In default_profile (map snd sector_weights)) as D by (simpl; tauto).
  unfold sector_profile. destruct sector; auto.
  destruct (assoc s sector_weights) eqn:E; auto. eapply assoc_In, E.
Qed.

Lemma sector_pool_in sector : In (sector_pool sector) (map snd factor_pools).
Proof.
  assert (In default_pool (map snd factor_pools)) as D by (simpl; tauto).
  unfold sector_pool. destruct sector; auto.
  destruct (assoc s factor_pools) eqn:E; auto. eapply assoc_In, E.
Qed.

(** The lookups of the code on a hashable sector, and on an unhashable one. *)
Lemma dict_get_sector_weights sector :
  hashable sector = true ->
  dict_get sector_weights sector default_profile = inr (sector_profile sector).
Proof. destruct sector; intros; try reflexivity; discriminate. Qed.

Lemma dict_get_factor_pools sector :
  hashable sector = true ->
  dict_get factor_pools sector default_pool = inr (sector_pool sector).
Proof. destruct sector; intros; try reflexivity; discriminate. Qed.

Lemma dict_get_unhashable {A} (d : list (string * A)) sector dflt :
  hashable sector = false -> dict_get d sector dflt = inl TypeError.
Proof. destruct sector; intros; try reflexivity; discriminate. Qed.

(** Every key of the pools is a key of the weights. *)
Lemma unknown_to_weights_unknown_to_pools s :
  assoc s sector_weights = None -> assoc s factor_pools = None.
Proof.
  unfold sector_weights, factor_pools. cbn [assoc].
  repeat match goal with
         | |- context [String.eqb s ?k] => destruct (String.eqb s k)
         end; congruence.
Qed.

(** Every sector adjustment is a finite number. *)
Lemma weights_finite :
  Forall (fun w => is_finite (stability w * 10) = true) (map snd sector_weights).
Proof. repeat constructor. Qed.

(** No row has a risk above 0.8, nor a risk score above 80. *)
Lemma risk_never_above_80 :
  Forall (fun w => py_gt (risk w) 0.8 = false /\ py_gt (risk w * 100) 80 = false)
    (map snd sector_weights).
Proof. repeat constructor. Qed.

(** Every pool holds five different strings. *)
Lemma pools_nodup : Forall (fun p => NoDup p /\ List.length p = 5%nat) (map snd factor_pools).
Proof.
  repeat constructor; simpl; intuition discriminate.
Qed.

(** * Sampling without replacement *)

(** Indexing a duplicate-free list at distinct valid positions gives
    distinct elements. *)
Lemma NoDup_map_nth (pool : list string) (idx : list nat) :
  NoDup pool -> NoDup idx -> (forall i, In i idx -> (i < List.length pool)%nat) ->
  NoDup (map (fun i => nth i pool "") idx).
Proof.
  intros Hp Hi. induction Hi as [|i idx Hn Hi IH]; intros Hb; simpl; constructor.
  - intros Hin. apply in_map_iff in Hin. destruct Hin as (j & Hj & Hin).
    assert (j = i).
    { apply (proj1 (NoDup_nth pool "") Hp); [apply Hb; simpl; auto ..|exact Hj]. }
    subst. contradiction.
  - apply IH. intros j Hj. apply Hb. simpl. auto.
Qed.

Lemma firstn_In {A} n (l : list A) x : In x (firstn n l) -> In x l.
Proof.
  revert l. induction n; intros [|a l]; simpl; try tauto. intros [H|H]; auto.
Qed.

Lemma firstn_NoDup {A} n (l : list A) : NoDup l -> NoDup (firstn n l).
Proof.
  intros H. revert n. induction H as [|a l Hn H IH]; intros [|n]; simpl; try constructor.
  - intros Hin. apply Hn. eapply firstn_In, Hin.
  - apply IH.
Qed.

(** What a draw without replacement yields, for any permutation numpy may
    use: as many items as asked for, no item twice, every item from the
    pool. *)
Lemma choice_without_replacement env pool k :
  valid_env env -> NoDup pool -> (k <= List.length pool)%nat ->
  let chosen := map (fun i => nth i pool "")
                  (firstn k (np_permutation env (List.length pool))) in
  List.length chosen = k /\ NoDup chosen /\ (forall f, In f chosen -> In f pool).
Proof.
  intros V Hp Hk chosen. subst chosen.
  pose proof (permutation_perm env V (List.length pool)) as P.
  assert (L : List.length (np_permutation env (List.length pool)) = List.length pool).
  { rewrite (Permutation_length P). apply length_seq. }
  assert (B : forall i, In i (np_permutation env (List.length pool)) ->
                        (i < List.length pool)%nat).
  { intros i Hi. apply (Permutation_in _ P) in Hi. apply in_seq in Hi. lia. }
  assert (N : NoDup (np_permutation env (List.length pool))).
  { apply (Permutation_NoDup (Permutation_sym P)). apply seq_NoDup. }
  split; [|split].
  - rewrite length_map, length_firstn. lia.
  - apply NoDup_map_nth; auto using firstn_NoDup.
    intros i Hi. apply B. eapply firstn_In, Hi.
  - intros f Hf. apply in_map_iff in Hf. destruct Hf as (i & <- & Hi).
    apply nth_In. apply B. eapply firstn_In, Hi.
Qed.

(** [np.random.choice] never asks for more items than the pool has. *)
Lemma key_factors_choice env pool :
  np_random_choice env pool (Nat.min 5 (List.length pool)) =
  inr (map (fun i => nth i pool "")
         (firstn (Nat.min 5 (List.length pool))
            (np_permutation env (List.length pool)))).
Proof.
  unfold np_random_choice.
  destruct (Nat.ltb_spec (List.length pool) (Nat.min 5 (List.length pool))); [lia|reflexivity].
Qed.

(** [_generate_key_factors] on a hashable sector. *)
Lemma generate_key_factors_ok env sector w price :
  hashable sector = true ->
  _generate_key_factors env sector w price =
  inr (map (fun i => nth i (sector_pool sector) "")
         (firstn (Nat.min 5 (List.length (sector_pool sector)))
            (np_permutation env (List.length (sector_pool sector))))).
Proof.
  intros H. unfold _generate_key_factors.
  change (dict_getitem factor_pools "default") with (@inr exn _ default_pool).
  cbn [bind]. rewrite (dict_get_factor_pools sector H). cbn [bind].
  apply key_factors_choice.
Qed.

(** * The confidence score *)

(** A positive price makes [100 / price] a number that is not negative. *)
Lemma quotient_class price :
  (0 <? price)%float = true -> signed_class false (Prim2SF (100 / price)).
Proof.
  rewrite ltb_spec, div_spec, SF_0, SF_100.
  destruct (Prim2SF price) as [s|s| |s m e]; try discriminate.
  - destruct s; [discriminate|]. intros _. reflexivity.
  - destruct s; [discriminate|]. intros _.
    unfold SF64div, SFdiv.
    destruct (SFdiv_core_binary prec emax 7036874417766400 (-46) (Z.pos m) e)
      as [[mz ez] lz] eqn:C.
    apply binary_round_aux_class.
    unfold SFdiv_core_binary in C.
    match type of C with
      (let '(q, r) := Z.div_eucl ?a ?b in _) = _ =>
        pose proof (Z.div_pos a b) as Q; unfold Z.div in Q;
        assert (0 <= a) as A0; [|destruct (Z.div_eucl a b) as [q r]]
    end.
    + match goal with |- 0 <= match ?s with _ => _ end => destruct s end;
        try lia. apply Z.shiftl_nonneg. lia.
    + inversion C; subst. apply Q; lia.
Qed.

Lemma py_min_10_class q :
  signed_class false (Prim2SF q) -> at_most_ten (Prim2SF (py_min 10 q)).
Proof.
  unfold py_min. rewrite ltb_spec, SF_10. intros C.
  destruct (SFltb (Prim2SF q) _) eqn:L; [|rewrite SF_10; simpl; lia].
  destruct (Prim2SF q) as [s|s| |s m e]; simpl in *; auto; subst; try discriminate.
  apply SFltb_finite_pos in L. lia.
Qed.

(** The price-stability term is a finite number. *)
Lemma times_5_finite a : at_most_ten (Prim2SF a) -> is_fin (Prim2SF (a * 5)).
Proof.
  rewrite mul_spec, SF_5. intros C.
  destruct (Prim2SF a) as [s|s| |s m e] eqn:E; simpl in C.
  1-3: (simpl; tauto).
  destruct s; [tauto|].
  unfold SF64mul, SFmul.
  destruct (finite_bounds _ _ _ _ E) as (Hm & _ & _).
  apply (binary_round_aux_finite _ _ _ _ 106 (-99)); try lia.
  vm_compute. discriminate.
Qed.

(** The sum that is clamped is never NaN for a finite base draw, a finite
    sector adjustment and a positive price. *)
Lemma confidence_sum_not_nan base sa price :
  is_finite base = true -> is_finite sa = true -> (0 <? price)%float = true ->
  Prim2SF (base + sa + py_min 10 (100 / price) * 5) <> S754_nan.
Proof.
  intros Hb Hs Hp.
  rewrite add_spec. apply SFadd_not_nan_fin.
  - rewrite add_spec. apply SFadd_fin_not_nan; apply is_finite_is_fin; assumption.
  - apply times_5_finite, py_min_10_class, quotient_class, Hp.
Qed.

(** The clamped confidence always truncates, to an integer from 50 to 95. *)
Lemma clamped_confidence_int base w q :
  exists z, py_int (clamped_confidence base w q) = inr z /\ 50 <= z <= 95.
Proof.
  unfold clamped_confidence.
  set (s := (base + stability w * 10 + py_min 10 q * 5)%float).
  unfold py_max, py_min.
  destruct (s <? 95)%float eqn:A.
  - destruct (50 <? s)%float eqn:B.
    + destruct (py_int_between s B A) as (z & Hz & Hr). exists z. split; [exact Hz|lia].
    + exists 50. split; [reflexivity|lia].
  - exists 95. split; [reflexivity|lia].
Qed.

(** * [_analyze_company_fundamentals] *)

(** Its three outcomes: an insight, the failed division, the unhashable
    sector. *)
Lemma analyze_company_fundamentals_ok env company_id symbol price sector :
  hashable sector = true -> (price =? 0)%float = false ->
  exists z,
    py_int (clamped_confidence (np_normal env 75 10) (sector_profile sector)
              (100 / price)) = inr z /\
    50 <= z <= 95 /\
    _analyze_company_fundamentals env company_id symbol price sector =
    inr (insight_of env company_id symbol price sector z).
Proof.
  intros H P.
  destruct (clamped_confidence_int (np_normal env 75 10) (sector_profile sector)
              (100 / price)) as (z & Hz & Hr).
  exists z. split; [exact Hz|]. split; [exact Hr|].
  unfold _analyze_company_fundamentals.
  change (dict_getitem sector_weights "default") with (@inr exn _ default_profile).
  cbn [bind]. rewrite (dict_get_sector_weights sector H). cbn [bind].
  unfold py_div. rewrite P. cbn [bind ret].
  rewrite (generate_key_factors_ok env sector _ price H). cbn [bind].
  rewrite Hz. reflexivity.
Qed.

Lemma analyze_company_fundamentals_zero env company_id symbol price sector :
  hashable sector = true -> (price =? 0)%float = true ->
  _analyze_company_fundamentals env company_id symbol price sector = inl ZeroDivisionError.
Proof.
  intros H P. unfold _analyze_company_fundamentals.
  change (dict_getitem sector_weights "default") with (@inr exn _ default_profile).
  cbn [bind]. rewrite (dict_get_sector_weights sector H). cbn [bind].
  unfold py_div. rewrite P. reflexivity.
Qed.

Lemma analyze_company_fundamentals_unhashable env company_id symbol price sector :
  hashable sector = false ->
  _analyze_company_fundamentals env company_id symbol price sector = inl TypeError.
Proof.
  intros H. unfold _analyze_company_fundamentals.
  change (dict_getitem sector_weights "default") with (@inr exn _ default_profile).
  cbn [bind]. rewrite (dict_get_unhashable _ sector _ H). reflexivity.
Qed.

(** * Batches *)

(** There are as many insights as successful outcomes, and every outcome is
    a success or a failure. *)
Lemma insights_of_length rs : List.length (insights_of rs) = List.length (filter success rs).
Proof.
  induction rs as [|[i|e] rs IH]; simpl; auto.
Qed.

Lemma filter_success_split rs :
  (List.length (filter success rs)
   + List.length (filter (fun r => negb (success r)) rs) = List.length rs)%nat.
Proof.
  induction rs as [|[i|e] rs IH]; simpl; lia.
Qed.

(** * The market sentiment *)

(** The clamped sentiment score is a number between -1 and 1. *)
Lemma clamped_sentiment_cases x :
  let c := py_max (-1) (py_min 1 x) in
  c = 1%float \/ c = (-1)%float \/
  (c = x /\ (-1 <? x)%float = true /\ (x <? 1)%float = true).
Proof.
  unfold py_max, py_min.
  destruct (x <? 1)%float eqn:A.
  - destruct (-1 <? x)%float eqn:B; auto.
  - left. reflexivity.
Qed.

Lemma clamped_sentiment_not_nan x : Prim2SF (py_max (-1) (py_min 1 x)) <> S754_nan.
Proof.
  destruct (clamped_sentiment_cases x) as [->|[->|(-> & _ & H)]].
  - rewrite SF_1. discriminate.
  - rewrite SF_m1. discriminate.
  - eapply ltb_not_nan_l, H.
Qed.

Lemma clamped_sentiment_in_unit x : in_unit (py_max (-1) (py_min 1 x)) = true.
Proof.
  destruct (clamped_sentiment_cases x) as [->|[->|(-> & A & B)]]; try reflexivity.
  unfold in_unit. now rewrite (ltb_leb_weaken _ _ A), (ltb_leb_weaken _ _ B).
Qed.

(** The score sent is between -1 and 1 too. *)
Lemma rounded_sentiment_in_unit x : in_unit (py_round (py_max (-1) (py_min 1 x)) 3) = true.
Proof.
  destruct (clamped_sentiment_cases x) as [->|[->|(-> & A & B)]].
  - vm_compute. reflexivity.
  - vm_compute. reflexivity.
  - apply py_round_3_unit; assumption.
Qed.

(** C4, as the code has it: the reading is always produced; its score is
    the clamped draw rounded to three decimals and lies between -1 and 1;
    the label is decided by the clamped draw before rounding: Bullish
    exactly when it is above 0.3, Neutral exactly when it is above -0.3 and
    at most 0.3, Bearish exactly when it is at most -0.3, each with its
    fixed description. *)
Theorem sentiment_label_follows_clamped_draw env :
  exists reading,
    market_sentiment env = {| status := 200; payload := SentimentBody reading |} /\
    let clamped := py_max (-1) (py_min 1 (np_normal env 0.6 0.2)) in
    score reading = py_round clamped 3 /\
    in_unit clamped = true /\
    in_unit (score reading) = true /\
    (sentiment reading = Bullish <-> py_gt clamped 0.3 = true) /\
    (sentiment reading = Neutral <->
       py_gt clamped (-0.3) = true /\ (clamped <=? 0.3)%float = true) /\
    (sentiment reading = Bearish <-> (clamped <=? -0.3)%float = true) /\
    description reading =
      match sentiment reading with
      | Bullish =>
          "AI models indicate positive market momentum with strong investor confidence"
      | Neutral =>
          "Market shows balanced sentiment with mixed signals from AI indicators"
      | Bearish =>
          "AI analysis suggests cautious market conditions with risk-off sentiment"
      end.
Proof.
  unfold market_sentiment.
  set (c := py_max (-1) (py_min 1 (np_normal env 0.6 0.2))).
  pose proof (clamped_sentiment_not_nan (np_normal env 0.6 0.2)) as N. fold c in N.
  assert (N3 : Prim2SF 0.3 <> S754_nan) by (rewrite SF_03; discriminate).
  assert (Nm3 : Prim2SF (-0.3) <> S754_nan) by (rewrite SF_m03; discriminate).
  pose proof (ltb_negb_leb 0.3 c N3 N) as L1.
  pose proof (ltb_negb_leb (-0.3) c Nm3 N) as L2.
  assert (T : (0.3 <? c)%float = true -> (-0.3 <? c)%float = true).
  { rewrite !ltb_spec, SF_03, SF_m03.
    destruct (Prim2SF c) as [s|s| |s m e]; try discriminate;
      destruct s; try discriminate; reflexivity. }
  unfold py_gt in *.
  destruct (0.3 <? c)%float eqn:A; [|destruct (-0.3 <? c)%float eqn:B];
    eexists; (split; [reflexivity|]); cbv zeta;
    cbn [score sentiment description fst snd]; fold c;
    (split; [reflexivity|]);
    (split; [apply clamped_sentiment_in_unit|]);
    (split; [apply rounded_sentiment_in_unit|]).
  - specialize (T eq_refl). rewrite T in L2.
    destruct (c <=? 0.3)%float; [discriminate|].
    destruct (c <=? -0.3)%float; [discriminate|].
    repeat split; intros; try discriminate; try reflexivity; intuition discriminate.
  - destruct (c <=? 0.3)%float; [|discriminate].
    destruct (c <=? -0.3)%float; [discriminate|].
    repeat split; intros; try discriminate; try reflexivity; intuition discriminate.
  - destruct (c <=? 0.3)%float; [|discriminate].
    destruct (c <=? -0.3)%float; [|discriminate].
    repeat split; intros; try discriminate; try reflexivity; intuition discriminate.
Qed.

(** C4 fails for the returned score: a draw of 0.3004 is labelled Bullish
    while the score sent with it is 0.3, which is not above 0.3. *)
Lemma bullish_with_score_not_above_threshold :
  exists reading,
    payload (market_sentiment (env_with_normal 0.3004)) = SentimentBody reading /\
    sentiment reading = Bullish /\
    score reading = 0.3%float /\
    py_gt (score reading) 0.3 = false.
Proof.
  eexists. split; [reflexivity|]. vm_compute. repeat split.
Qed.

(** * The insight engine and the batch handler *)

Section EngineProperties.

Variable float_of_str : string -> option float.

Local Notation py_float := (py_float float_of_str).
Local Notation generate_company_insight := (generate_company_insight float_of_str).
Local Notation generate_insight := (generate_insight float_of_str).
Local Notation batch_loop := (batch_loop float_of_str).
Local Notation batch_analysis := (batch_analysis float_of_str).
Local Notation outcomes := (outcomes float_of_str).
Local Notation valid_company_input := (valid_company_input float_of_str).

(** Only objects answer [.get]. *)
Lemma py_get_dict data key dflt v :
  py_get data key dflt = inr v -> exists d, data = PyDict d.
Proof. destruct data; try discriminate. eauto. Qed.

(** A successful call, read backwards: the fields it found and the
    insight it built. *)
Lemma generate_company_insight_Success env data insight :
  generate_company_insight env data = Success insight ->
  exists company_id symbol raw price sector z,
    py_get data "id" (PyInt 1) = inr company_id /\
    py_get data "symbol" (PyStr "UNKNOWN") = inr symbol /\
    py_get data "current_price" (PyInt 100) = inr raw /\
    py_float raw = inr price /\
    py_get data "sector" (PyStr "Technology") = inr sector /\
    hashable sector = true /\
    (price =? 0)%float = false /\
    py_int (clamped_confidence (np_normal env 75 10) (sector_profile sector)
              (100 / price)) = inr z /\
    50 <= z <= 95 /\
    insight = insight_of env company_id symbol price sector z.
Proof.
  unfold generate_company_insight, company_insight_body.
  destruct data as [ | | | | | |d]; try discriminate.
  cbn [py_get bind ret].
  set (company_id := match assoc "id" d with Some v => v | None => PyInt 1 end).
  set (symbol := match assoc "symbol" d with Some v => v | None => PyStr "UNKNOWN" end).
  set (raw := match assoc "current_price" d with Some v => v | None => PyInt 100 end).
  set (sector := match assoc "sector" d with Some v => v | None => PyStr "Technology" end).
  destruct (py_float raw) as [e|price] eqn:F; [discriminate|].
  cbn [bind].
  destruct (hashable sector) eqn:H.
  - destruct (price =? 0)%float eqn:P.
    + rewrite analyze_company_fundamentals_zero by assumption. discriminate.
    + destruct (analyze_company_fundamentals_ok env company_id symbol price sector H P)
        as (z & Hz & Hr & ->).
      intros [= <-]. exists company_id, symbol, raw, price, sector, z. tauto.
  - rewrite analyze_company_fundamentals_unhashable by assumption. discriminate.
Qed.

(** The fields of a successful call, under fixed names. *)
Ltac success_fields Hi :=
  apply generate_company_insight_Success in Hi;
  destruct Hi as (cid & sym & raw & price & sector & z & Hid & Hsym & Hraw & Hprice
                  & Hsector & Hhash & Hnz & Hz & Hrange & ->).

(** A price that reads as a non-zero float and a hashable sector are all a
    request needs to succeed. *)
Lemma generate_company_insight_ok env data raw price sector :
  py_get data "current_price" (PyInt 100) = inr raw ->
  py_float raw = inr price ->
  (price =? 0)%float = false ->
  py_get data "sector" (PyStr "Technology") = inr sector ->
  hashable sector = true ->
  exists company_id symbol z,
    py_int (clamped_confidence (np_normal env 75 10) (sector_profile sector)
              (100 / price)) = inr z /\
    50 <= z <= 95 /\
    generate_company_insight env data
    = Success (insight_of env company_id symbol price sector z).
Proof.
  intros G F P S H.
  destruct (py_get_dict _ _ _ _ G) as [d ->].
  unfold generate_company_insight, company_insight_body.
  cbn [py_get bind ret] in *. injection G as G. injection S as S.
  rewrite G, F. cbn [bind]. rewrite S.
  destruct (analyze_company_fundamentals_ok env
              match assoc "id" d with Some v => v | None => PyInt 1 end
              match assoc "symbol" d with Some v => v | None => PyStr "UNKNOWN" end
              price sector H P) as (z & Hz & Hr & ->).
  eauto 7.
Qed.

(** A price that cannot be read as a float fails the request with the
    exception of the conversion. *)
Lemma generate_company_insight_bad_price env data raw e :
  py_get data "current_price" (PyInt 100) = inr raw ->
  py_float raw = inl e ->
  generate_company_insight env data = Failure e.
Proof.
  intros G F. destruct (py_get_dict _ _ _ _ G) as [d ->].
  unfold generate_company_insight, company_insight_body.
  cbn [py_get bind ret] in *. injection G as G. rewrite G, F. reflexivity.
Qed.

(** A price that reads as zero fails the request, with the exception of
    the division when the sector is hashable. *)
Lemma generate_company_insight_zero_price env data raw price :
  py_get data "current_price" (PyInt 100) = inr raw ->
  py_float raw = inr price ->
  (price =? 0)%float = true ->
  exists e, generate_company_insight env data = Failure e /\
    (forall sector, py_get data "sector" (PyStr "Technology") = inr sector ->
                    hashable sector = true -> e = ZeroDivisionError).
Proof.
  intros G F P. destruct (py_get_dict _ _ _ _ G) as [d ->].
  unfold generate_company_insight, company_insight_body.
  cbn [py_get bind ret] in *. injection G as G. rewrite G, F. cbn [bind].
  set (sector := match assoc "sector" d with Some v => v | None => PyStr "Technology" end).
  destruct (hashable sector) eqn:H.
  - rewrite analyze_company_fundamentals_zero by assumption.
    exists ZeroDivisionError. split; [reflexivity|]. reflexivity.
  - rewrite analyze_company_fundamentals_unhashable by assumption.
    exists TypeError. split; [reflexivity|].
    intros s [= <-] H'. fold sector in H'. congruence.
Qed.

(** C1: for every valid CompanyInput and every base draw, the insight is
    produced and its [confidence_score] is an integer between 50 and 95,
    namely the truncation of the clamp to [50, 95] of
    [base + stability * 10 + min(10, 100 / price) * 5], with [stability]
    taken from the sector's profile. *)
Theorem confidence_score_truncates_clamped_sum env company_data price sector :
  valid_env env ->
  valid_company_input company_data price sector ->
  exists insight,
    generate_company_insight env company_data = Success insight /\
    50 <= confidence_score insight <= 95 /\
    py_int (clamp (np_normal env 75 10
                   + stability (sector_profile (PyStr sector)) * 10
                   + py_min 10 (100 / price) * 5) 50 95)
    = inr (confidence_score insight).
Proof.
  intros V ((raw & G & F) & Pos & S).
  destruct (generate_company_insight_ok env company_data raw price (PyStr sector)
              G F (positive_nonzero price Pos) S eq_refl)
    as (cid & sym & z & Hz & Hr & Hi).
  eexists. split; [exact Hi|]. cbn [confidence_score insight_of].
  split; [exact Hr|].
  rewrite <- Hz. unfold clamped_confidence. f_equal. symmetry.
  apply py_clamp_50_95, confidence_sum_not_nan.
  - apply (normal_finite env V); reflexivity.
  - pose proof weights_finite as W. rewrite Forall_forall in W.
    apply W, sector_profile_in.
  - exact Pos.
Qed.

(** C2: the recommendation of an insight is the first match of four rules
    evaluated in order on the clamped confidence as it is before [int()]
    truncates it, on growth * 100 and on risk * 100; the first rule gives
    BUY whatever the risk score is; and the [confidence_score] the insight
    carries is the truncation of the value the rules compared. *)
Theorem recommendation_is_first_matching_rule env company_data insight :
  generate_company_insight env company_data = Success insight ->
  exists (price : float) (sector : pyval),
    let weights := sector_profile sector in
    let clamped_score :=
      clamped_confidence (np_normal env 75 10) weights (100 / price) in
    let growth_score := (growth weights * 100)%float in
    let risk_score := (risk weights * 100)%float in
    let buy := py_gt clamped_score 80 && py_gt growth_score 70 in
    let hold := py_gt clamped_score 65 && py_lt risk_score 60 in
    let sell := py_gt risk_score 80 in
    py_get company_data "sector" (PyStr "Technology") = inr sector /\
    (exists raw, py_get company_data "current_price" (PyInt 100) = inr raw /\
                 py_float raw = inr price) /\
    (buy = true -> recommendation insight = BUY) /\
    (buy = false -> hold = true -> recommendation insight = HOLD) /\
    (buy = false -> hold = false -> sell = true -> recommendation insight = SELL) /\
    (buy = false -> hold = false -> sell = false -> recommendation insight = WATCH) /\
    (buy = true -> forall any_risk : float,
        recommend clamped_score growth_score any_risk = BUY) /\
    py_int clamped_score = inr (confidence_score insight).
Proof.
  intros Hi. success_fields Hi.
  exists price, sector. cbv zeta. cbn [recommendation confidence_score insight_of].
  split; [exact Hsector|]. split; [eauto|].
  unfold recommend.
  repeat split; intros; try exact Hz;
    repeat match goal with H : _ = _ |- _ => rewrite H end; reflexivity.
Qed.

(** The key factors of any insight the engine returns. *)
Lemma key_factors_of_insight env company_data insight :
  valid_env env ->
  generate_company_insight env company_data = Success insight ->
  exists sector,
    py_get company_data "sector" (PyStr "Technology") = inr sector /\
    List.length (key_factors insight) = Nat.min 5 (List.length (sector_pool sector)) /\
    NoDup (key_factors insight) /\
    (forall f, In f (key_factors insight) -> In f (sector_pool sector)).
Proof.
  intros V Hi. success_fields Hi.
  exists sector. split; [exact Hsector|]. cbn [key_factors insight_of].
  pose proof pools_nodup as N. rewrite Forall_forall in N.
  destruct (N _ (sector_pool_in sector)) as [Nd Len].
  apply (choice_without_replacement env (sector_pool sector)
           (Nat.min 5 (List.length (sector_pool sector))) V Nd). lia.
Qed.

(** C3: for every valid CompanyInput and every draw, the insight is
    produced and its key factors are [min(5, pool size)] strings, hence at
    most five, all different, all taken from the FactorPool entry of the
    input's sector, or from the default pool when the sector has no
    entry. *)
Theorem key_factors_drawn_from_sector_pool env company_data price sector :
  valid_env env ->
  valid_company_input company_data price sector ->
  exists insight,
    generate_company_insight env company_data = Success insight /\
    let pool := match assoc sector factor_pools with
                | Some entry => entry
                | None => default_pool
                end in
    List.length (key_factors insight) = Nat.min 5 (List.length pool) /\
    (List.length (key_factors insight) <= 5)%nat /\
    NoDup (key_factors insight) /\
    (forall f, In f (key_factors insight) -> In f pool).
Proof.
  intros V ((raw & G & F) & Pos & S).
  destruct (generate_company_insight_ok env company_data raw price (PyStr sector)
              G F (positive_nonzero price Pos) S eq_refl)
    as (cid & sym & z & _ & _ & Hi).
  eexists. split; [exact Hi|].
  destruct (key_factors_of_insight env company_data _ V Hi)
    as (sector' & S' & L & D & I).
  rewrite S in S'. injection S' as <-.
  change (sector_pool (PyStr sector))
    with (match assoc sector factor_pools with
          | Some entry => entry
          | None => default_pool
          end) in *.
  cbv zeta. repeat split; auto. rewrite L. lia.
Qed.

(** The loop appends the insights of the outcomes to what it was given. *)
Lemma batch_loop_outcomes envs i companies results :
  batch_loop envs i companies results
  = (results ++ insights_of (outcomes envs i companies))%list.
Proof.
  revert i results. induction companies as [|c cs IH]; intros i results; simpl.
  - now rewrite app_nil_r.
  - destruct (generate_company_insight (envs i) c) as [ins|e]; rewrite IH; simpl.
    + now rewrite <- app_assoc.
    + reflexivity.
Qed.

Lemma outcomes_length envs i companies :
  List.length (outcomes envs i companies) = List.length companies.
Proof. revert i. induction companies; intros i; simpl; auto. Qed.

(** Item [k] of a batch is answered by the environment of call [i + k]. *)
Lemma outcomes_nth envs i companies k company :
  nth_error companies k = Some company ->
  nth_error (outcomes envs i companies) k
  = Some (generate_company_insight (envs (i + k)%nat) company).
Proof.
  revert i k. induction companies as [|c cs IH]; intros i [|k]; simpl; try discriminate.
  - intros [= ->]. now rewrite Nat.add_0_r.
  - intros H. rewrite (IH (S i) k H). do 3 f_equal. lia.
Qed.

(** C5: a non-empty batch is answered with status 200, the insights of the
    successful items in order, and their number as [processed_count];
    failed items leave no trace.  An item whose price is text that is not a
    number fails, so three companies of which exactly one fails give two
    insights and [processed_count = 2]. *)
Theorem batch_analysis_drops_failed_items envs data companies :
  py_get data "companies" (PyList []) = inr (PyList companies) ->
  companies <> [] ->
  let results := outcomes envs 0 companies in
  batch_analysis envs data =
    {| status := 200;
       payload := BatchBody (insights_of results) (List.length (insights_of results)) |} /\
  List.length (insights_of results) = List.length (filter success results) /\
  (forall k company s,
      nth_error companies k = Some company ->
      py_get company "current_price" (PyInt 100) = inr (PyStr s) ->
      float_of_str s = None ->
      nth_error results k = Some (Failure ValueError)) /\
  (List.length companies = 3%nat ->
   List.length (filter (fun r => negb (success r)) results) = 1%nat ->
   List.length (insights_of results) = 2%nat).
Proof.
  intros G NE results.
  split; [|split; [|split]].
  - unfold batch_analysis. rewrite G. cbn [bind].
    destruct companies as [|c cs]; [congruence|].
    cbn [py_truthy negb py_iter bind ret].
    rewrite batch_loop_outcomes. reflexivity.
  - apply insights_of_length.
  - intros k company s Hk Hp Hs. unfold results.
    rewrite (outcomes_nth envs 0 companies k company Hk). f_equal.
    apply (generate_company_insight_bad_price _ _ (PyStr s)); [exact Hp|].
    simpl. now rewrite Hs.
  - intros L3 F1. rewrite insights_of_length.
    pose proof (filter_success_split results) as S.
    unfold results in *. rewrite outcomes_length in S. lia.
Qed.

(** C6, as the code has it: the engine answers every input with a success
    or a failure record; a price that cannot be read as a float fails with
    the conversion's exception, and a price that reads as zero fails; a
    negative price is accepted and yields an insight. *)
Theorem price_is_coerced_not_validated env company_data :
  ((exists insight, generate_company_insight env company_data = Success insight) \/
   (exists e, generate_company_insight env company_data = Failure e)) /\
  (forall raw e,
      py_get company_data "current_price" (PyInt 100) = inr raw ->
      py_float raw = inl e ->
      generate_company_insight env company_data = Failure e) /\
  (forall raw price,
      py_get company_data "current_price" (PyInt 100) = inr raw ->
      py_float raw = inr price ->
      (price =? 0)%float = true ->
      exists e, generate_company_insight env company_data = Failure e) /\
  (forall raw price sector,
      py_get company_data "current_price" (PyInt 100) = inr raw ->
      py_float raw = inr price ->
      (price <? 0)%float = true ->
      py_get company_data "sector" (PyStr "Technology") = inr sector ->
      hashable sector = true ->
      exists insight, generate_company_insight env company_data = Success insight).
Proof.
  split; [|split; [|split]].
  - destruct (generate_company_insight env company_data) as [i|e]; eauto.
  - intros raw e G F. eapply generate_company_insight_bad_price; eauto.
  - intros raw price G F Z.
    destruct (generate_company_insight_zero_price env _ _ _ G F Z) as (e & He & _).
    eauto.
  - intros raw price sector G F N S H.
    destruct (generate_company_insight_ok env company_data raw price sector
                G F (negative_nonzero price N) S H) as (cid & sym & z & _ & _ & Hi).
    eauto.
Qed.

(** C7, as the code has it: for draws numpy can make,
    [data_points_analyzed] lies in 500..1999, [processing_time_ms] in
    150..499 and the sentiment's [confidence] in 70..94 (the upper
    arguments 2000, 500 and 95 are exclusive), and every combination of
    three such values is produced by some draw. *)
Theorem random_integers_exclude_upper_bound env a b c :
  valid_env env ->
  500 <= a <= 1999 -> 150 <= b <= 499 -> 70 <= c <= 94 ->
  (forall company_data insight,
      generate_company_insight env company_data = Success insight ->
      500 <= data_points_analyzed (ai_metadata insight) <= 1999 /\
      150 <= processing_time_ms (ai_metadata insight) <= 499) /\
  (forall reading,
      payload (market_sentiment env) = SentimentBody reading ->
      70 <= confidence reading <= 94) /\
  (exists env' insight reading,
      valid_env env' /\
      generate_company_insight env' (PyDict []) = Success insight /\
      payload (market_sentiment env') = SentimentBody reading /\
      data_points_analyzed (ai_metadata insight) = a /\
      processing_time_ms (ai_metadata insight) = b /\
      confidence reading = c).
Proof.
  intros V Ha Hb Hc. split; [|split].
  - intros data insight Hi. success_fields Hi.
    cbn [ai_metadata data_points_analyzed processing_time_ms insight_of].
    pose proof (randint_range env V 500 2000 ltac:(lia)).
    pose proof (randint_range env V 150 500 ltac:(lia)). lia.
  - unfold market_sentiment. cbn [payload]. intros reading [= <-]. cbn [confidence].
    pose proof (randint_range env V 70 95 ltac:(lia)). lia.
  - assert (V' : valid_env (env_with_randint a b c)).
    { constructor.
      - intros mu sigma Hm _. exact Hm.
      - intros low high Hlt. cbn [np_randint env_with_randint].
        destruct ((low <=? _) && (_ <? high)) eqn:E; [|lia].
        apply andb_true_iff in E. lia.
      - intros n. apply Permutation_refl. }
    destruct (generate_company_insight_ok (env_with_randint a b c)
                (PyDict []) (PyInt 100) 100 (PyStr "Technology")
                eq_refl eq_refl eq_refl eq_refl eq_refl)
      as (cid & sym & z & _ & _ & Hi).
    do 3 eexists.
    split; [exact V'|]. split; [exact Hi|]. split; [reflexivity|].
    cbn [ai_metadata data_points_analyzed processing_time_ms insight_of confidence
         np_randint env_with_randint].
    change (500 =? 500) with true. change (150 =? 500) with false.
    change (150 =? 150) with true. change (70 =? 500) with false.
    change (70 =? 150) with false. change (70 =? 70) with true. cbv iota.
    destruct (Z.leb_spec 500 a); [|lia]. destruct (Z.ltb_spec a 2000); [|lia].
    destruct (Z.leb_spec 150 b); [|lia]. destruct (Z.ltb_spec b 500); [|lia].
    destruct (Z.leb_spec 70 c); [|lia]. destruct (Z.ltb_spec c 95); [|lia].
    auto.
Qed.

(** C8: a sector string that is not a key of the sector tables is scored
    with the default profile and draws its factors from the default pool,
    and the request succeeds whenever its price reads as a non-zero float;
    looking a sector string up never raises. *)
Theorem unknown_sector_uses_defaults env company_data raw price s :
  py_get company_data "sector" (PyStr "Technology") = inr (PyStr s) ->
  assoc s sector_weights = None ->
  py_get company_data "current_price" (PyInt 100) = inr raw ->
  py_float raw = inr price ->
  (price =? 0)%float = false ->
  dict_get sector_weights (PyStr s) default_profile = inr default_profile /\
  dict_get factor_pools (PyStr s) default_pool = inr default_pool /\
  (forall any : string,
      exists w p, dict_get sector_weights (PyStr any) default_profile = inr w /\
                  dict_get factor_pools (PyStr any) default_pool = inr p) /\
  exists insight,
    generate_company_insight env company_data = Success insight /\
    py_int (clamped_confidence (np_normal env 75 10) default_profile (100 / price))
    = inr (confidence_score insight) /\
    recommendation insight =
      recommend (clamped_confidence (np_normal env 75 10) default_profile (100 / price))
        (growth default_profile * 100) (risk default_profile * 100) /\
    key_factors insight =
      map (fun i => nth i default_pool "") (firstn 5 (np_permutation env 5)).
Proof.
  intros S U G F NZ.
  pose proof (unknown_to_weights_unknown_to_pools s U) as U'.
  assert (W : sector_profile (PyStr s) = default_profile)
    by (unfold sector_profile; now rewrite U).
  assert (P : sector_pool (PyStr s) = default_pool)
    by (unfold sector_pool; now rewrite U').
  split; [|split; [|split]].
  - rewrite dict_get_sector_weights by reflexivity. now rewrite W.
  - rewrite dict_get_factor_pools by reflexivity. now rewrite P.
  - intros any. exists (sector_profile (PyStr any)), (sector_pool (PyStr any)).
    split; reflexivity.
  - destruct (generate_company_insight_ok env company_data raw price (PyStr s)
                G F NZ S eq_refl) as (cid & sym & z & Hz & _ & Hi).
    eexists. split; [exact Hi|].
    cbn [confidence_score recommendation key_factors insight_of].
    rewrite W, P in *. auto.
Qed.

(** C9: no row of the sector weights, the default included, has a risk
    above 0.8 or a risk score above 80, so no insight recommends SELL:
    the recommendation is BUY, HOLD or WATCH. *)
Theorem sell_is_never_recommended env company_data insight :
  generate_company_insight env company_data = Success insight ->
  Forall (fun w => py_gt (risk w) 0.8 = false /\ py_gt (risk w * 100) 80 = false)
    (map snd sector_weights) /\
  recommendation insight <> SELL /\
  (recommendation insight = BUY \/ recommendation insight = HOLD \/
   recommendation insight = WATCH).
Proof.
  intros Hi. success_fields Hi.
  pose proof risk_never_above_80 as T.
  split; [exact T|].
  rewrite Forall_forall in T. destruct (T _ (sector_profile_in sector)) as [_ R].
  cbn [recommendation insight_of]. unfold recommend. rewrite R.
  destruct (_ && _); [split; [discriminate|auto]|].
  destruct (_ && _); split; try discriminate; auto.
Qed.

(** C10: a request whose price reads as zero gets no insight: the engine
    reports a failure (the division's [ZeroDivisionError] for a hashable
    sector), [/ai/insight] answers 500, and a batch skips the item. *)
Theorem zero_price_is_reported_as_failure envs i rest results env company_data raw price :
  py_get company_data "current_price" (PyInt 100) = inr raw ->
  py_float raw = inr price ->
  (price =? 0)%float = true ->
  (exists e,
      generate_company_insight env company_data = Failure e /\
      (forall sector,
          py_get company_data "sector" (PyStr "Technology") = inr sector ->
          hashable sector = true -> e = ZeroDivisionError) /\
      generate_insight env company_data =
        {| status := 500; payload := ErrorBody (ExnText e) |}) /\
  batch_loop envs i (company_data :: rest) results = batch_loop envs (S i) rest results.
Proof.
  intros G F Z. split.
  - destruct (generate_company_insight_zero_price env _ _ _ G F Z) as (e & He & Hs).
    exists e. split; [exact He|]. split; [exact Hs|].
    unfold generate_insight. rewrite He.
    destruct company_data as [ | | | | | |d]; try discriminate.
    destruct d as [|kv d]; [|reflexivity].
    exfalso. cbn in G. injection G as <-. cbn in F. injection F as <-.
    discriminate.
  - destruct (generate_company_insight_zero_price (envs i) _ _ _ G F Z) as (e & He & _).
    change (batch_loop envs i (company_data :: rest) results)
      with (match generate_company_insight (envs i) company_data with
            | Success insight => batch_loop envs (S i) rest (results ++ [insight])
            | Failure _ => batch_loop envs (S i) rest results
            end).
    now rewrite He.
Qed.

End EngineProperties.

(** * Inputs at which the specification and the code part *)

(** C6 fails for negative prices: a request priced at -50 gets an
    insight. *)
Lemma negative_price_is_accepted :
  py_float sample_parser (PyInt (-50)) = inr (-50)%float /\
  ((-50) <? 0)%float = true /\
  exists insight,
    generate_company_insight sample_parser sample_env
      (PyDict [("symbol", PyStr "ACME"); ("current_price", PyInt (-50))])
    = Success insight /\
    confidence_score insight = 71 /\
    recommendation insight = WATCH.
Proof.
  split; [reflexivity|]. split; [reflexivity|].
  eexists. split; [vm_compute; reflexivity|]. split; reflexivity.
Qed.

(** C7 fails at the upper end points: no draw makes
    [data_points_analyzed] equal to 2000. *)
Lemma data_points_never_2000 :
  ~ exists float_of_str env company_data insight,
      valid_env env /\
      generate_company_insight float_of_str env company_data = Success insight /\
      data_points_analyzed (ai_metadata insight) = 2000.
Proof.
  intros (fos & env & data & insight & V & Hi & D).
  apply generate_company_insight_Success in Hi.
  destruct Hi as (cid & sym & raw & price & sector & z & _ & _ & _ & _ & _ & _ & _
                  & _ & _ & ->).
  cbn [ai_metadata data_points_analyzed insight_of] in D.
  pose proof (randint_range env V 500 2000 ltac:(lia)). lia.
Qed.

(** C2 fails when [confidence_score] is the integer the insight carries: a
    clamped confidence of 80.5 is above 80 and gives BUY, and is reported
    as 80, which is not above 80; the four rules evaluated on the reported
    80 give WATCH. *)
Lemma buy_reported_with_confidence_80 :
  exists insight,
    generate_company_insight sample_parser (env_with_normal 69.5)
      (PyDict [("symbol", PyStr "ACME"); ("current_price", PyInt 100)])
    = Success insight /\
    clamped_confidence 69.5 (sector_profile (PyStr "Technology")) (100 / 100)
    = 80.5%float /\
    recommendation insight = BUY /\
    confidence_score insight = 80 /\
    ~ 80 < confidence_score insight /\
    float_of_int (confidence_score insight) = inr 80%float /\
    recommend 80 (growth (sector_profile (PyStr "Technology")) * 100)
      (risk (sector_profile (PyStr "Technology")) * 100) = WATCH.
Proof.
  eexists. split; [vm_compute; reflexivity|].
  split; [reflexivity|]. split; [reflexivity|]. split; [reflexivity|].
  split; [intros H; vm_compute in H; discriminate|].
  split; [vm_compute; reflexivity|]. vm_compute. reflexivity.
Qed.

(** * The theorems at sample requests *)

(** The sample environment makes draws numpy can make. *)
Lemma sample_env_valid : valid_env sample_env.
Proof.
  constructor.
  - intros mu sigma Hm _. exact Hm.
  - intros low high H. simpl. lia.
  - intros n. apply Permutation_refl.
Qed.

(** The engine's answer to the sample company. *)
Lemma sample_company_insight :
  generate_company_insight sample_parser sample_env sample_company
  = Success sample_insight.
Proof. vm_compute. reflexivity. Qed.

Lemma confidence_score_truncates_clamped_sum_witness :
  valid_env sample_env /\
  valid_company_input sample_parser sample_company 100 "Finance" /\
  exists insight,
    generate_company_insight sample_parser sample_env sample_company = Success insight /\
    50 <= confidence_score insight <= 95 /\
    py_int (clamp (np_normal sample_env 75 10
                   + stability (sector_profile (PyStr "Finance")) * 10
                   + py_min 10 (100 / 100) * 5) 50 95)
    = inr (confidence_score insight).
Proof.
  assert (I : valid_company_input sample_parser sample_company 100 "Finance").
  { split; [exists (PyStr "100"); split; reflexivity|]. split; reflexivity. }
  split; [exact sample_env_valid|]. split; [exact I|].
  exact (confidence_score_truncates_clamped_sum sample_parser sample_env
           sample_company 100 "Finance" sample_env_valid I).
Defined.

Lemma recommendation_is_first_matching_rule_witness :
  generate_company_insight sample_parser sample_env sample_company
  = Success sample_insight /\
  recommendation sample_insight = WATCH.
Proof.
  split; [exact sample_company_insight|].
  destruct (recommendation_is_first_matching_rule sample_parser sample_env
              sample_company sample_insight sample_company_insight)
    as (price & sector & S & (raw & G & F) & _ & _ & _ & Hwatch & _).
  injection S as <-. injection G as <-. injection F as <-.
  apply Hwatch; reflexivity.
Defined.

Lemma key_factors_drawn_from_sector_pool_witness :
  valid_env sample_env /\
  valid_company_input sample_parser sample_company 100 "Finance" /\
  exists insight,
    generate_company_insight sample_parser sample_env sample_company = Success insight /\
    List.length (key_factors insight) = 5%nat /\
    NoDup (key_factors insight) /\
    (forall f, In f (key_factors insight) -> In f (sector_pool (PyStr "Finance"))).
Proof.
  assert (I : valid_company_input sample_parser sample_company 100 "Finance").
  { split; [exists (PyStr "100"); split; reflexivity|]. split; reflexivity. }
  split; [exact sample_env_valid|]. split; [exact I|].
  destruct (key_factors_drawn_from_sector_pool sample_parser sample_env
              sample_company 100 "Finance" sample_env_valid I)
    as (insight & Hi & L & _ & D & M).
  exists insight. auto.
Defined.

Lemma batch_analysis_drops_failed_items_witness :
  let data := PyDict [("companies",
                PyList [sample_company; malformed_company; unknown_sector_company])] in
  py_get data "companies" (PyList [])
  = inr (PyList [sample_company; malformed_company; unknown_sector_company]) /\
  [sample_company; malformed_company; unknown_sector_company] <> [] /\
  (exists a b,
      batch_analysis sample_parser (fun _ => sample_env) data =
      {| status := 200; payload := BatchBody [a; b] 2 |}) /\
  nth_error (outcomes sample_parser (fun _ => sample_env) 0
               [sample_company; malformed_company; unknown_sector_company]) 1
  = Some (Failure ValueError).
Proof.
  cbv zeta.
  assert (N : [sample_company; malformed_company; unknown_sector_company] <> [])
    by discriminate.
  split; [reflexivity|]. split; [exact N|].
  destruct (batch_analysis_drops_failed_items sample_parser (fun _ => sample_env)
              (PyDict [("companies",
                 PyList [sample_company; malformed_company; unknown_sector_company])])
              [sample_company; malformed_company; unknown_sector_company]
              eq_refl N) as (R & _ & B & _).
  split.
  - rewrite R. do 2 eexists. vm_compute. reflexivity.
  - exact (B 1%nat malformed_company "abc" eq_refl eq_refl eq_refl).
Defined.

Lemma random_integers_exclude_upper_bound_witness :
  valid_env sample_env /\
  500 <= 1999 <= 1999 /\ 150 <= 499 <= 499 /\ 70 <= 94 <= 94 /\
  500 <= data_points_analyzed (ai_metadata sample_insight) <= 1999 /\
  exists env' insight reading,
    valid_env env' /\
    generate_company_insight sample_parser env' (PyDict []) = Success insight /\
    payload (market_sentiment env') = SentimentBody reading /\
    data_points_analyzed (ai_metadata insight) = 1999 /\
    processing_time_ms (ai_metadata insight) = 499 /\
    confidence reading = 94.
Proof.
  split; [exact sample_env_valid|].
  split; [lia|]. split; [lia|]. split; [lia|].
  destruct (random_integers_exclude_upper_bound sample_parser sample_env 1999 499 94
              sample_env_valid ltac:(lia) ltac:(lia) ltac:(lia)) as (R & _ & E).
  split; [|exact E].
  exact (proj1 (R sample_company sample_insight sample_company_insight)).
Defined.

Lemma unknown_sector_uses_defaults_witness :
  py_get unknown_sector_company "sector" (PyStr "Technology")
  = inr (PyStr "Unknown-Sector-XYZ") /\
  assoc "Unknown-Sector-XYZ" sector_weights = None /\
  py_get unknown_sector_company "current_price" (PyInt 100) = inr (PyInt 100) /\
  py_float sample_parser (PyInt 100) = inr 100%float /\
  (100 =? 0)%float = false /\
  dict_get sector_weights (PyStr "Unknown-Sector-XYZ") default_profile
  = inr default_profile /\
  dict_get factor_pools (PyStr "Unknown-Sector-XYZ") default_pool = inr default_pool /\
  exists insight,
    generate_company_insight sample_parser sample_env unknown_sector_company
    = Success insight /\
    key_factors insight = default_pool.
Proof.
  do 7 (split; [reflexivity|]).
  destruct (unknown_sector_uses_defaults sample_parser sample_env
              unknown_sector_company (PyInt 100) 100 "Unknown-Sector-XYZ"
              eq_refl eq_refl eq_refl eq_refl eq_refl)
    as (_ & _ & _ & insight & Hi & _ & _ & K).
  exists insight. split; [exact Hi|]. rewrite K. reflexivity.
Defined.

Lemma sell_is_never_recommended_witness :
  generate_company_insight sample_parser sample_env sample_company
  = Success sample_insight /\
  recommendation sample_insight <> SELL.
Proof.
  split; [exact sample_company_insight|].
  exact (proj1 (proj2 (sell_is_never_recommended sample_parser sample_env
                         sample_company sample_insight sample_company_insight))).
Defined.

Lemma zero_price_is_reported_as_failure_witness :
  py_get free_company "current_price" (PyInt 100) = inr (PyInt 0) /\
  py_float sample_parser (PyInt 0) = inr 0%float /\
  (0 =? 0)%float = true /\
  generate_company_insight sample_parser sample_env free_company
  = Failure ZeroDivisionError /\
  generate_insight sample_parser sample_env free_company
  = {| status := 500; payload := ErrorBody (ExnText ZeroDivisionError) |} /\
  batch_loop sample_parser (fun _ => sample_env) 0 [free_company; sample_company] []
  = batch_loop sample_parser (fun _ => sample_env) 1 [sample_company] [].
Proof.
  do 3 (split; [reflexivity|]).
  destruct (zero_price_is_reported_as_failure sample_parser (fun _ => sample_env)
              0%nat [sample_company] [] sample_env free_company (PyInt 0) 0
              eq_refl eq_refl eq_refl) as ((e & He & Hs & Hr) & B).
  rewrite (Hs (PyStr "Technology") eq_refl eq_refl) in He, Hr.
  split; [exact He|]. split; [exact Hr|exact B].
Defined.

(** * More about the recommendation *)

Lemma SF_65 : Prim2SF 65 = S754_finite false 4573968371548160 (-46).
Proof. vm_compute. reflexivity. Qed.
Lemma SF_80 : Prim2SF 80 = S754_finite false 5629499534213120 (-46).
Proof. vm_compute. reflexivity. Qed.

(** The clamped confidence is 50, 95 or a number strictly between them. *)
Lemma clamped_confidence_cases base w q :
  let c := clamped_confidence base w q in
  c = 50%float \/ c = 95%float \/ ((50 <? c)%float = true /\ (c <? 95)%float = true).
Proof.
  unfold clamped_confidence.
  set (s := (base + stability w * 10 + py_min 10 q * 5)%float).
  unfold py_max, py_min.
  destruct (s <? 95)%float eqn:A.
  - destruct (50 <? s)%float eqn:B; auto.
  - right. left. reflexivity.
Qed.

(** [int(x)] of a float between a threshold [n] in 64..94 and 95 is at
    least [n]. *)
Lemma py_int_above t n x :
  64 <= n <= 94 ->
  Prim2SF t = S754_finite false (Z.to_pos (n * 2 ^ 46)) (-46) ->
  (t <? x)%float = true -> (x <? 95)%float = true ->
  exists z, py_int x = inr z /\ n <= z <= 94.
Proof.
  intros Hn Ht. rewrite !ltb_spec, Ht, SF_95. unfold py_int.
  destruct (Prim2SF x) as [s|s| |s m e] eqn:E; try discriminate.
  - destruct s; discriminate.
  - destruct s; [discriminate|].
    rewrite !SFltb_finite_pos. intros Lo Hi.
    assert (P46 : 2 ^ 46 = 70368744177664) by reflexivity.
    rewrite Z2Pos.id in Lo by lia.
    assert (e = -46) as -> by lia.
    eexists. split; [reflexivity|]. cbn [Z.leb Z.compare Z.opp].
    rewrite P46 in *. split.
    + apply Z.div_le_lower_bound; lia.
    + apply Z.lt_succ_r. apply Z.div_lt_upper_bound; lia.
Qed.

Lemma clamped_int_above t n base w q z :
  64 <= n <= 94 ->
  Prim2SF t = S754_finite false (Z.to_pos (n * 2 ^ 46)) (-46) ->
  py_gt (clamped_confidence base w q) t = true ->
  py_int (clamped_confidence base w q) = inr z ->
  n <= z.
Proof.
  intros Hn Ht G I. unfold py_gt in G.
  destruct (clamped_confidence_cases base w q) as [C|[C|[A B]]].
  - rewrite C in G. rewrite ltb_spec, Ht, SF_50 in G.
    assert (P46 : 2 ^ 46 = 70368744177664) by reflexivity.
    apply SFltb_finite_pos in G. rewrite Z2Pos.id in G by lia. lia.
  - rewrite C in I. change (py_int 95) with (@inr exn Z 95) in I.
    injection I as <-. lia.
  - destruct (py_int_above t n _ Hn Ht G B) as (z' & Hz & Hr).
    rewrite Hz in I. injection I as <-. lia.
Qed.

(** A row that fails the growth, the low-risk and the high-risk tests
    gives WATCH whatever the confidence is. *)
Lemma recommend_watch c g r :
  py_gt g 70 = false -> py_lt r 60 = false -> py_gt r 80 = false ->
  recommend c g r = WATCH.
Proof.
  intros G L H. unfold recommend. rewrite G, L, H, !andb_false_r. reflexivity.
Qed.

(** The rows of the sectors that are neither Technology, E-commerce nor
    Healthcare. *)
Lemma other_sector_profile sector :
  sector <> PyStr "Technology" -> sector <> PyStr "E-commerce" ->
  sector <> PyStr "Healthcare" ->
  let w := sector_profile sector in
  py_gt (growth w * 100) 70 = false /\ py_lt (risk w * 100) 60 = false /\
  py_gt (risk w * 100) 80 = false.
Proof.
  intros T E H. destruct sector; try (repeat split; reflexivity).
  unfold sector_profile, sector_weights. cbn [assoc].
  destruct (String.eqb_spec s "Technology"); [congruence|].
  destruct (String.eqb_spec s "Healthcare"); [congruence|].
  destruct (String.eqb s "Finance"); [repeat split; reflexivity|].
  destruct (String.eqb s "Education"); [repeat split; reflexivity|].
  destruct (String.eqb_spec s "E-commerce"); [congruence|].
  destruct (String.eqb s "default"); repeat split; reflexivity.
Qed.

Lemma map_nth_seq (l : list string) :
  map (fun i => nth i l "") (seq 0 (List.length l)) = l.
Proof.
  induction l as [|a l IH]; [reflexivity|].
  cbn [List.length seq map nth]. f_equal.
  rewrite <- seq_shift, map_map. exact IH.
Qed.

(** Drawing as many items as the pool has returns the pool, rearranged. *)
Lemma full_choice_is_permutation env pool :
  valid_env env ->
  Permutation
    (map (fun i => nth i pool "")
       (firstn (List.length pool) (np_permutation env (List.length pool))))
    pool.
Proof.
  intros V. pose proof (permutation_perm env V (List.length pool)) as P.
  rewrite firstn_all2.
  - pose proof (Permutation_map (fun i => nth i pool "") P) as M.
    rewrite map_nth_seq in M. exact M.
  - rewrite (Permutation_length P), length_seq. lia.
Qed.

(** The only sector with a profile of its own and no pool of its own. *)
Lemma pools_cover_weights_but_ecommerce s :
  assoc s factor_pools = None <->
  assoc s sector_weights = None \/ s = "E-commerce".
Proof.
  unfold factor_pools, sector_weights. cbn [assoc].
  destruct (String.eqb_spec s "Technology") as [->|];
    [split; [discriminate|intros [H|H]; discriminate]|].
  destruct (String.eqb_spec s "Healthcare") as [->|];
    [split; [discriminate|intros [H|H]; discriminate]|].
  destruct (String.eqb_spec s "Finance") as [->|];
    [split; [discriminate|intros [H|H]; discriminate]|].
  destruct (String.eqb_spec s "Education") as [->|];
    [split; [discriminate|intros [H|H]; discriminate]|].
  destruct (String.eqb_spec s "E-commerce") as [->|].
  - split; auto.
  - destruct (String.eqb s "default"); split; auto; try discriminate.
    intros [H|H]; congruence.
Qed.

Lemma recommend_BUY c g r : recommend c g r = BUY -> py_gt c 80 = true.
Proof.
  unfold recommend. destruct (py_gt c 80); [reflexivity|]. cbn [andb].
  destruct (_ && _); [discriminate|]. destruct (py_gt r 80); discriminate.
Qed.

Lemma recommend_HOLD c g r : recommend c g r = HOLD -> py_gt c 65 = true.
Proof.
  unfold recommend. destruct (_ && _); [discriminate|].
  destruct (py_gt c 65); [reflexivity|]. cbn [andb].
  destruct (py_gt r 80); discriminate.
Qed.

(** [int(x)] of a clamped confidence that is not above a threshold [n] in
    64..94 is at most [n]. *)
Lemma clamped_int_not_above t n base w q z :
  64 <= n <= 94 ->
  Prim2SF t = S754_finite false (Z.to_pos (n * 2 ^ 46)) (-46) ->
  py_gt (clamped_confidence base w q) t = false ->
  py_int (clamped_confidence base w q) = inr z ->
  z <= n.
Proof.
  intros Hn Ht G I. unfold py_gt in G.
  assert (P46 : 2 ^ 46 = 70368744177664) by reflexivity.
  assert (P47 : 2 ^ 47 = 140737488355328) by reflexivity.
  destruct (clamped_confidence_cases base w q) as [C|[C|[A B]]].
  - rewrite C in I. change (py_int 50) with (@inr exn Z 50) in I.
    injection I as <-. lia.
  - rewrite C in G. rewrite ltb_spec, Ht, SF_95 in G.
    apply SFltb_finite_pos_false in G. rewrite Z2Pos.id in G by lia. lia.
  - revert G A B I. rewrite !ltb_spec, Ht, SF_50, SF_95. unfold py_int.
    destruct (Prim2SF (clamped_confidence base w q)) as [s|s| |s m e] eqn:E;
      try discriminate; try (destruct s; discriminate).
    destruct s; [discriminate|].
    rewrite SFltb_finite_pos_false, !SFltb_finite_pos, Z2Pos.id by lia.
    intros G A B [= <-].
    destruct (finite_bounds _ _ _ _ E) as (Hm & He & Hnorm).
    assert (P53 : 2 ^ 53 = 9007199254740992) by reflexivity.
    assert (e = -47 \/ e = -46) as [-> | ->] by lia;
      cbn [Z.leb Z.compare Z.opp]; rewrite ?P46, ?P47;
      apply Z.lt_succ_r, Z.div_lt_upper_bound; lia.
Qed.

(** The [if] chain on the rows of the sectors that can get BUY, and on the
    row of the sector that can get HOLD. *)
Lemma recommend_growth_sector c sector :
  sector = PyStr "Technology" \/ sector = PyStr "E-commerce" ->
  recommend c (growth (sector_profile sector) * 100) (risk (sector_profile sector) * 100)
  = if py_gt c 80 then BUY else WATCH.
Proof.
  intros [-> | ->]; unfold recommend.
  - change (py_gt (growth (sector_profile (PyStr "Technology")) * 100) 70) with true.
    change (py_lt (risk (sector_profile (PyStr "Technology")) * 100) 60) with false.
    change (py_gt (risk (sector_profile (PyStr "Technology")) * 100) 80) with false.
    rewrite andb_true_r, andb_false_r. reflexivity.
  - change (py_gt (growth (sector_profile (PyStr "E-commerce")) * 100) 70) with true.
    change (py_lt (risk (sector_profile (PyStr "E-commerce")) * 100) 60) with false.
    change (py_gt (risk (sector_profile (PyStr "E-commerce")) * 100) 80) with false.
    rewrite andb_true_r, andb_false_r. reflexivity.
Qed.

Lemma recommend_healthcare c :
  recommend c (growth (sector_profile (PyStr "Healthcare")) * 100)
    (risk (sector_profile (PyStr "Healthcare")) * 100)
  = if py_gt c 65 then HOLD else WATCH.
Proof.
  unfold recommend.
  change (py_gt (growth (sector_profile (PyStr "Healthcare")) * 100) 70) with false.
  change (py_lt (risk (sector_profile (PyStr "Healthcare")) * 100) 60) with true.
  change (py_gt (risk (sector_profile (PyStr "Healthcare")) * 100) 80) with false.
  rewrite andb_true_r, andb_false_r. reflexivity.
Qed.

Section MoreEngineProperties.

Variable float_of_str : string -> option float.

Local Notation py_float := (py_float float_of_str).
Local Notation generate_company_insight := (generate_company_insight float_of_str).
Local Notation generate_insight := (generate_insight float_of_str).
Local Notation generate_insight_handler :=
  (generate_insight_handler float_of_str).
Local Notation batch_loop := (batch_loop float_of_str).
Local Notation batch_analysis := (batch_analysis float_of_str).
Local Notation outcomes := (outcomes float_of_str).

(** The fields of a successful call, under fixed names. *)
Ltac insight_fields Hi :=
  apply generate_company_insight_Success in Hi;
  destruct Hi as (cid & sym & raw & price & sector & z & Hid & Hsym & Hraw & Hprice
                  & Hsector & Hhash & Hnz & Hz & Hrange & ->).

(** X1: the sector decides which recommendations an insight can carry.
    Technology and E-commerce get BUY when the clamped confidence is above
    80 and WATCH otherwise; Healthcare gets HOLD when it is above 65 and
    WATCH otherwise; every other sector value always gets WATCH. *)
Theorem recommendation_determined_by_sector env company_data insight :
  generate_company_insight env company_data = Success insight ->
  exists (sector : pyval) (price : float),
    py_get company_data "sector" (PyStr "Technology") = inr sector /\
    (exists raw, py_get company_data "current_price" (PyInt 100) = inr raw /\
                 py_float raw = inr price) /\
    let confidence_score :=
      clamped_confidence (np_normal env 75 10) (sector_profile sector) (100 / price) in
    (sector = PyStr "Technology" \/ sector = PyStr "E-commerce" ->
     recommendation insight = if py_gt confidence_score 80 then BUY else WATCH) /\
    (sector = PyStr "Healthcare" ->
     recommendation insight = if py_gt confidence_score 65 then HOLD else WATCH) /\
    (sector <> PyStr "Technology" -> sector <> PyStr "E-commerce" ->
     sector <> PyStr "Healthcare" -> recommendation insight = WATCH).
Proof.
  intros Hi. insight_fields Hi.
  exists sector, price. split; [exact Hsector|]. split; [eauto|].
  cbv zeta. cbn [recommendation insight_of].
  split; [|split].
  - apply recommend_growth_sector.
  - intros ->. apply recommend_healthcare.
  - intros T E H. destruct (other_sector_profile sector T E H) as (G & L & R).
    apply recommend_watch; assumption.
Qed.

(** X2: the integer reported as [confidence_score] agrees with the
    recommendation up to the truncation: BUY comes with at least 80 and
    HOLD with at least 65; for Technology and E-commerce 81 or more means
    BUY and 79 or less means WATCH, and for Healthcare 66 or more means
    HOLD and 64 or less means WATCH. *)
Theorem reported_confidence_agrees_with_recommendation env company_data insight :
  generate_company_insight env company_data = Success insight ->
  (recommendation insight = BUY -> 80 <= confidence_score insight) /\
  (recommendation insight = HOLD -> 65 <= confidence_score insight) /\
  (forall sector,
      py_get company_data "sector" (PyStr "Technology") = inr sector ->
      (sector = PyStr "Technology" \/ sector = PyStr "E-commerce" ->
       (81 <= confidence_score insight -> recommendation insight = BUY) /\
       (confidence_score insight <= 79 -> recommendation insight = WATCH)) /\
      (sector = PyStr "Healthcare" ->
       (66 <= confidence_score insight -> recommendation insight = HOLD) /\
       (confidence_score insight <= 64 -> recommendation insight = WATCH))).
Proof.
  intros Hi. insight_fields Hi.
  cbn [recommendation confidence_score insight_of].
  set (c := clamped_confidence (np_normal env 75 10) (sector_profile sector)
              (100 / price)) in *.
  assert (B : recommend c (growth (sector_profile sector) * 100)
                (risk (sector_profile sector) * 100) = BUY -> 80 <= z).
  { intros R. apply recommend_BUY in R.
    exact (clamped_int_above 80 80 _ _ _ _ ltac:(lia) SF_80 R Hz). }
  assert (H : recommend c (growth (sector_profile sector) * 100)
                (risk (sector_profile sector) * 100) = HOLD -> 65 <= z).
  { intros R. apply recommend_HOLD in R.
    exact (clamped_int_above 65 65 _ _ _ _ ltac:(lia) SF_65 R Hz). }
  split; [exact B|]. split; [exact H|].
  intros sector' S'. rewrite Hsector in S'. injection S' as <-.
  split.
  - intros TE. rewrite (recommend_growth_sector c sector TE) in *.
    destruct (py_gt c 80) eqn:G.
    + split; [auto|]. intros L. specialize (B eq_refl). lia.
    + split; [|auto]. intros L. exfalso. subst c.
      pose proof (clamped_int_not_above 80 80 _ _ _ _ ltac:(lia) SF_80 G Hz). lia.
  - intros ->. rewrite (recommend_healthcare c) in *.
    destruct (py_gt c 65) eqn:G.
    + split; [auto|]. intros L. specialize (H eq_refl). lia.
    + split; [|auto]. intros L. exfalso. subst c.
      pose proof (clamped_int_not_above 65 65 _ _ _ _ ltac:(lia) SF_65 G Hz). lia.
Qed.

(** The key factors of an insight are its sector's pool, rearranged. *)
Lemma key_factors_permutation env company_data insight :
  valid_env env ->
  generate_company_insight env company_data = Success insight ->
  exists sector,
    py_get company_data "sector" (PyStr "Technology") = inr sector /\
    Permutation (key_factors insight) (sector_pool sector).
Proof.
  intros V Hi. insight_fields Hi.
  exists sector. split; [exact Hsector|]. cbn [key_factors insight_of].
  pose proof pools_nodup as N. rewrite Forall_forall in N.
  destruct (N _ (sector_pool_in sector)) as [_ Len].
  replace (Nat.min 5 (List.length (sector_pool sector)))
    with (List.length (sector_pool sector)) by (rewrite Len; reflexivity).
  apply full_choice_is_permutation, V.
Qed.

(** X3: the factor "selection" never leaves a factor out: the key factors
    of every insight are all five factors of the sector's pool, each once;
    only their order depends on the draw. *)
Theorem key_factors_are_the_whole_pool env company_data insight :
  valid_env env ->
  generate_company_insight env company_data = Success insight ->
  exists sector,
    py_get company_data "sector" (PyStr "Technology") = inr sector /\
    Permutation (key_factors insight) (sector_pool sector) /\
    List.length (key_factors insight) = 5%nat /\
    (forall f, In f (sector_pool sector) -> In f (key_factors insight)).
Proof.
  intros V Hi.
  destruct (key_factors_permutation env company_data insight V Hi) as (sector & S & P).
  exists sector. split; [exact S|]. split; [exact P|].
  pose proof pools_nodup as N. rewrite Forall_forall in N.
  destruct (N _ (sector_pool_in sector)) as [_ Len].
  split.
  - rewrite (Permutation_length P). exact Len.
  - intros f Hf. apply (Permutation_in f (Permutation_sym P)), Hf.
Qed.

(** X4: E-commerce is the one sector with weights of its own and no
    factor pool: its insights are scored with the E-commerce row and list
    the factors of the default pool. *)
Theorem ecommerce_scored_by_own_row_with_default_factors env company_data insight :
  valid_env env ->
  generate_company_insight env company_data = Success insight ->
  py_get company_data "sector" (PyStr "Technology") = inr (PyStr "E-commerce") ->
  (forall s, assoc s factor_pools = None <->
             assoc s sector_weights = None \/ s = "E-commerce") /\
  Permutation (key_factors insight) default_pool /\
  exists price,
    (exists raw, py_get company_data "current_price" (PyInt 100) = inr raw /\
                 py_float raw = inr price) /\
    py_int (clamped_confidence (np_normal env 75 10)
              {| growth := 0.9; stability := 0.5; risk := 0.8 |} (100 / price))
    = inr (confidence_score insight).
Proof.
  intros V Hi S.
  split; [exact pools_cover_weights_but_ecommerce|].
  destruct (key_factors_permutation env company_data insight V Hi) as (sector & S' & P).
  rewrite S in S'. injection S' as <-.
  split; [exact P|].
  insight_fields Hi. rewrite S in Hsector. injection Hsector as <-.
  exists price. split; [eauto|]. exact Hz.
Qed.

(** A value that is not an object has no [.get]. *)
Lemma generate_company_insight_not_object env data :
  (forall d, data <> PyDict d) ->
  generate_company_insight env data = Failure AttributeError.
Proof.
  intros N. destruct data; try reflexivity. exfalso. eapply N. reflexivity.
Qed.

(** The outcome of a call on an object, by the price and the sector it
    finds. *)
Lemma generate_company_insight_object env d :
  let raw := match assoc "current_price" d with Some v => v | None => PyInt 100 end in
  let sector := match assoc "sector" d with Some v => v | None => PyStr "Technology" end in
  match py_float raw with
  | inl e => generate_company_insight env (PyDict d) = Failure e
  | inr price =>
      if hashable sector then
        if (price =? 0)%float
        then generate_company_insight env (PyDict d) = Failure ZeroDivisionError
        else exists insight, generate_company_insight env (PyDict d) = Success insight
      else generate_company_insight env (PyDict d) = Failure TypeError
  end.
Proof.
  intros raw sector.
  destruct (py_float raw) as [e|price] eqn:F.
  - eapply generate_company_insight_bad_price; [reflexivity|exact F].
  - destruct (hashable sector) eqn:H.
    + destruct (price =? 0)%float eqn:P.
      * destruct (generate_company_insight_zero_price float_of_str env (PyDict d)
                    raw price eq_refl F P) as (e & He & Hs).
        rewrite He. f_equal. exact (Hs sector eq_refl H).
      * destruct (generate_company_insight_ok float_of_str env (PyDict d) raw price
                    sector eq_refl F P eq_refl H) as (cid & sym & z & _ & _ & Hi).
        eauto.
    + unfold generate_company_insight, company_insight_body.
      cbn [py_get bind ret]. fold raw. rewrite F. cbn [bind]. fold sector.
      now rewrite analyze_company_fundamentals_unhashable.
Qed.

(** X5: the engine fails in exactly four ways: the input is not an object
    ([AttributeError]); the price cannot be read as a float (the
    conversion's exception, before the sector is looked at); the sector is a
    list or an object ([TypeError], before the division); the price reads
    as zero ([ZeroDivisionError]). *)
Theorem engine_fails_in_exactly_four_ways env company_data e :
  generate_company_insight env company_data = Failure e <->
  ((forall d, company_data <> PyDict d) /\ e = AttributeError) \/
  (exists raw,
      py_get company_data "current_price" (PyInt 100) = inr raw /\
      py_float raw = inl e) \/
  (exists raw price sector,
      py_get company_data "current_price" (PyInt 100) = inr raw /\
      py_float raw = inr price /\
      py_get company_data "sector" (PyStr "Technology") = inr sector /\
      ((hashable sector = false /\ e = TypeError) \/
       (hashable sector = true /\ (price =? 0)%float = true /\
        e = ZeroDivisionError))).
Proof.
  destruct company_data as [ | | | | | |d].
  1-6: (split;
        [intros [= <-]; left; split; [intros d; discriminate|reflexivity]
        |intros [[_ ->]|[(raw & G & _)|(raw & price & sector & G & _)]];
         [reflexivity|discriminate|discriminate]]).
  pose proof (generate_company_insight_object env d) as O. cbv zeta in O.
  cbn [py_get ret].
  set (raw := match assoc "current_price" d with Some v => v | None => PyInt 100 end) in *.
  set (sector := match assoc "sector" d with Some v => v | None => PyStr "Technology" end)
    in *.
  split.
  - intros Hf. right.
    destruct (py_float raw) as [e'|price] eqn:F.
    + left. exists raw. split; [reflexivity|]. congruence.
    + right. exists raw, price, sector. split; [reflexivity|]. split; [exact F|].
      split; [reflexivity|].
      destruct (hashable sector).
      * destruct (price =? 0)%float.
        -- right. repeat split. congruence.
        -- destruct O as [i Hi]. congruence.
      * left. split; [reflexivity|congruence].
  - intros [[N _]|[(raw' & [= <-] & F)|(raw' & price & sector' & [= <-] & F & [= <-] & C)]].
    + exfalso. eapply N. reflexivity.
    + rewrite F in O. exact O.
    + rewrite F in O.
      destruct C as [(H & ->)|(H & P & ->)]; rewrite H in O; [exact O|].
      rewrite P in O. exact O.
Qed.

(** What [/ai/insight] answers to a decoded body, by its status and its
    payload. *)
Lemma generate_insight_status env company_data :
  (status (generate_insight env company_data) = 400 <->
   py_truthy company_data = false) /\
  (status (generate_insight env company_data) = 200 <->
   py_truthy company_data = true /\
   exists raw price sector,
     py_get company_data "current_price" (PyInt 100) = inr raw /\
     py_float raw = inr price /\
     (price =? 0)%float = false /\
     py_get company_data "sector" (PyStr "Technology") = inr sector /\
     hashable sector = true) /\
  (status (generate_insight env company_data) = 500 <->
   py_truthy company_data = true /\
   exists e, generate_company_insight env company_data = Failure e) /\
  (forall insight,
      payload (generate_insight env company_data) = InsightBody insight <->
      py_truthy company_data = true /\
      generate_company_insight env company_data = Success insight) /\
  (forall e,
      payload (generate_insight env company_data) = ErrorBody (ExnText e) <->
      py_truthy company_data = true /\
      generate_company_insight env company_data = Failure e).
Proof.
  unfold generate_insight.
  destruct (py_truthy company_data) eqn:T; cbn [negb].
  2:{ cbn [status payload].
      repeat split; try discriminate; try reflexivity;
        try (intros [? _]; discriminate); intros; discriminate. }
  destruct (generate_company_insight env company_data) as [i|e] eqn:Hi;
    cbn [status payload].
  - split; [split; discriminate|].
    split.
    { split; [intros _; split; [reflexivity|]|reflexivity].
      insight_fields Hi. exists raw, price, sector. tauto. }
    split; [split; [discriminate|intros [_ [e He]]; discriminate]|].
    split.
    + intros insight. split; [intros [= ->]; auto|intros [_ [= ->]]; reflexivity].
    + intros e. split; [discriminate|intros [_ He]; discriminate].
  - split; [split; discriminate|].
    split.
    { split; [discriminate|].
      intros (_ & raw & price & sector & G & F & P & S & H).
      destruct (generate_company_insight_ok float_of_str env company_data raw price
                  sector G F P S H) as (cid & sym & z & _ & _ & Hok).
      rewrite Hok in Hi. discriminate. }
    split; [split; [eauto|reflexivity]|].
    split.
    + intros insight. split; [discriminate|intros [_ He]; discriminate].
    + intros e'. split; [intros [= ->]; auto|intros [_ [= ->]]; reflexivity].
Qed.

(** X6: the answers of [/ai/insight].  It answers 500 with the text
    "Internal server error" exactly when [request.get_json()] raises.  A
    body that is decoded is answered 400 exactly when Python counts it as
    false; 200, with the engine's insight, exactly when it counts as true,
    its price reads as a non-zero float and its sector is hashable; and
    500, with the engine's error, exactly when it counts as true and the
    engine fails.  There is no other status. *)
Theorem insight_endpoint_status env request :
  (status (generate_insight_handler env request) = 400 <->
   exists company_data,
     request = Returns company_data /\ py_truthy company_data = false) /\
  (status (generate_insight_handler env request) = 200 <->
   exists company_data,
     request = Returns company_data /\ py_truthy company_data = true /\
     exists raw price sector,
       py_get company_data "current_price" (PyInt 100) = inr raw /\
       py_float raw = inr price /\
       (price =? 0)%float = false /\
       py_get company_data "sector" (PyStr "Technology") = inr sector /\
       hashable sector = true) /\
  (status (generate_insight_handler env request) = 500 <->
   request = Raises \/
   exists company_data,
     request = Returns company_data /\ py_truthy company_data = true /\
     exists e, generate_company_insight env company_data = Failure e) /\
  (forall insight,
      payload (generate_insight_handler env request) = InsightBody insight <->
      exists company_data,
        request = Returns company_data /\ py_truthy company_data = true /\
        generate_company_insight env company_data = Success insight) /\
  (forall e,
      payload (generate_insight_handler env request) = ErrorBody (ExnText e) <->
      exists company_data,
        request = Returns company_data /\ py_truthy company_data = true /\
        generate_company_insight env company_data = Failure e) /\
  (payload (generate_insight_handler env request)
   = ErrorBody (Message "Internal server error") <->
   request = Raises) /\
  (status (generate_insight_handler env request) = 400 \/
   status (generate_insight_handler env request) = 200 \/
   status (generate_insight_handler env request) = 500).
Proof.
  destruct request as [company_data|];
    unfold generate_insight_handler.
  - destruct (generate_insight_status env company_data) as (A & B & C & D & E).
    split; [|split; [|split; [|split; [|split; [|split]]]]].
    + rewrite A. split; [eauto|]. now intros (cd & [= <-] & H).
    + rewrite B. split; [eauto|]. now intros (cd & [= <-] & H).
    + rewrite C. split; [eauto|]. intros [R|(cd & [= <-] & H)]; [discriminate|exact H].
    + intros insight. rewrite D. split; [eauto|]. now intros (cd & [= <-] & H).
    + intros e. rewrite E. split; [eauto|]. now intros (cd & [= <-] & H).
    + split; [|discriminate]. unfold generate_insight.
      destruct (py_truthy company_data); cbn [negb]; [|discriminate].
      destruct (generate_company_insight env company_data); discriminate.
    + unfold generate_insight.
      destruct (py_truthy company_data); cbn [negb]; [|now left].
      destruct (generate_company_insight env company_data);
        [right; left|right; right]; reflexivity.
  - cbn [status payload].
    split; [split; [discriminate|intros (cd & R & _); discriminate]|].
    split; [split; [discriminate|intros (cd & R & _); discriminate]|].
    split; [split; [now left|reflexivity]|].
    split; [intros insight; split; [discriminate|intros (cd & R & _); discriminate]|].
    split; [intros e; split; [discriminate|intros (cd & R & _); discriminate]|].
    split; [split; reflexivity|]. right; right; reflexivity.
Qed.


Lemma SFeqb_refl_finite s m e :
  SFeqb (S754_finite s m e) (S754_finite s m e) = true.
Proof.
  unfold SFeqb, SFcompare.
  change (Pos.compare_cont Eq m m) with (Pos.compare m m).
  destruct s; rewrite Z.compare_refl, Pos.compare_refl; reflexivity.
Qed.

(** There is one NaN. *)
Lemma is_nan_nan x : is_nan x = true -> x = nan.
Proof.
  unfold is_nan. rewrite eqb_spec. intros H. apply Prim2SF_inj.
  change (Prim2SF nan) with S754_nan.
  destruct (Prim2SF x) as [s|s| |s m e]; try reflexivity.
  - destruct s; discriminate.
  - destruct s; discriminate.
  - rewrite SFeqb_refl_finite in H. discriminate.
Qed.

(** X8: a price that is not a number, or is infinite, is not rejected.  A
    NaN price is scored like the lowest prices, with the full
    price-stability term 50; an infinite price with the term 0. *)
Theorem nan_and_infinite_prices_are_scored env company_data raw price sector :
  py_get company_data "current_price" (PyInt 100) = inr raw ->
  py_float raw = inr price ->
  py_get company_data "sector" (PyStr "Technology") = inr sector ->
  hashable sector = true ->
  is_nan price = true \/ price = infinity ->
  exists insight,
    generate_company_insight env company_data = Success insight /\
    py_int (py_max 50 (py_min 95
              (np_normal env 75 10 + stability (sector_profile sector) * 10
               + (if is_nan price then 50 else 0))%float))
    = inr (confidence_score insight).
Proof.
  intros G F S H C.
  assert (P : (price =? 0)%float = false)
    by (destruct C as [N| ->]; [rewrite (is_nan_nan _ N)|]; reflexivity).
  destruct (generate_company_insight_ok float_of_str env company_data raw price
              sector G F P S H) as (cid & sym & z & Hz & _ & Hi).
  eexists. split; [exact Hi|]. cbn [confidence_score insight_of].
  rewrite <- Hz. unfold clamped_confidence.
  destruct C as [N| ->].
  - rewrite (is_nan_nan _ N). reflexivity.
  - reflexivity.
Qed.

(** X9: the narrative of an insight is the template of the recommendation
    it carries, filled with the request's symbol and sector, and is never
    the SELL template; the company name is the symbol followed by
    [" Analysis"]. *)
Theorem narrative_matches_recommendation env company_data insight :
  generate_company_insight env company_data = Success insight ->
  exists sector,
    py_get company_data "sector" (PyStr "Technology") = inr sector /\
    insight_text insight
    = insight_templates (symbol insight) sector (recommendation insight) /\
    insight_text insight <> insight_templates (symbol insight) sector SELL /\
    company_name insight = [Fmt (symbol insight); Lit " Analysis"].
Proof.
  intros Hi. insight_fields Hi.
  exists sector. split; [exact Hsector|].
  cbn [insight_text symbol recommendation company_name insight_of].
  split; [reflexivity|]. split; [|reflexivity].
  pose proof risk_never_above_80 as T. rewrite Forall_forall in T.
  destruct (T _ (sector_profile_in sector)) as [_ R].
  unfold recommend. rewrite R.
  destruct (_ && _); [discriminate|]. destruct (_ && _); discriminate.
Qed.

End MoreEngineProperties.

(** * More about batches *)

(** There are at most as many insights as outcomes, and as many exactly
    when every outcome is a success. *)
Lemma insights_of_le rs : (List.length (insights_of rs) <= List.length rs)%nat.
Proof. induction rs as [|[i|e] rs IH]; simpl; lia. Qed.

Lemma insights_of_all rs :
  List.length (insights_of rs) = List.length rs <->
  Forall (fun r => success r = true) rs.
Proof.
  induction rs as [|[i|e] rs IH]; simpl.
  - split; auto.
  - split.
    + intros H. constructor; [reflexivity|]. apply IH. lia.
    + intros H. inversion H; subst. f_equal. now apply IH.
  - pose proof (insights_of_le rs) as L. split; [lia|].
    intros H. inversion H; subst. discriminate.
Qed.

Lemma insights_of_app rs1 rs2 :
  insights_of (rs1 ++ rs2) = (insights_of rs1 ++ insights_of rs2)%list.
Proof.
  induction rs1 as [|[i|e] rs1 IH]; simpl; [reflexivity| |exact IH].
  now rewrite IH.
Qed.

(** The characters of a string and the keys of an object are strings. *)
Lemma chars_are_strings s : Forall (fun c => exists t, c = PyStr t) (chars s).
Proof. induction s; simpl; constructor; eauto. Qed.

Lemma keys_are_strings (d : list (string * pyval)) :
  Forall (fun c => exists t, c = PyStr t) (map (fun kv => PyStr (fst kv)) d).
Proof. induction d; simpl; constructor; eauto. Qed.

Section MoreBatchProperties.

Variable float_of_str : string -> option float.

Local Notation py_float := (py_float float_of_str).
Local Notation generate_company_insight := (generate_company_insight float_of_str).
Local Notation generate_insight := (generate_insight float_of_str).
Local Notation batch_loop := (batch_loop float_of_str).
Local Notation batch_analysis := (batch_analysis float_of_str).
Local Notation outcomes := (outcomes float_of_str).

(** A batch of strings yields no insight. *)
Lemma outcomes_of_strings envs i items :
  Forall (fun c => exists t, c = PyStr t) items ->
  insights_of (outcomes envs i items) = [].
Proof.
  intros F. revert i. induction F as [|c items [t ->] F IH]; intros i; simpl; auto.
Qed.

(** X10: what [/ai/batch-analysis] does with a body that is not a list of
    companies.  A body that is not an object, or whose [companies] is a
    non-zero number or [true], is answered 500; a [companies] that Python
    counts as false is answered 400; a non-empty string or object is
    iterated (by characters, by keys), every item fails, and the answer is
    200 with no insights and [processed_count = 0]. *)
Theorem batch_analysis_on_malformed_companies envs data :
  ((forall d, data <> PyDict d) ->
   batch_analysis envs data
   = {| status := 500; payload := ErrorBody (Message "Batch analysis failed") |}) /\
  (forall companies,
      py_get data "companies" (PyList []) = inr companies ->
      (py_truthy companies = false ->
       batch_analysis envs data
       = {| status := 400; payload := RejectBody "No companies provided" |}) /\
      (py_truthy companies = true ->
       (exists z, companies = PyInt z) \/ (exists f, companies = PyFloat f) \/
       (exists b, companies = PyBool b) ->
       batch_analysis envs data
       = {| status := 500; payload := ErrorBody (Message "Batch analysis failed") |}) /\
      (py_truthy companies = true ->
       (exists s, companies = PyStr s) \/ (exists d, companies = PyDict d) ->
       batch_analysis envs data = {| status := 200; payload := BatchBody [] 0 |})).
Proof.
  split.
  - intros N. destruct data; try reflexivity. exfalso. eapply N. reflexivity.
  - intros companies G. unfold batch_analysis. rewrite G. cbn [bind].
    split; [|split].
    + intros T. rewrite T. reflexivity.
    + intros T C. rewrite T. cbn [negb].
      destruct C as [[z ->]|[[f ->]|[b ->]]]; reflexivity.
    + intros T C. rewrite T. cbn [negb].
      destruct C as [[s ->]|[d ->]]; cbn [py_iter bind ret];
        rewrite batch_loop_outcomes, outcomes_of_strings;
        auto using chars_are_strings, keys_are_strings.
Qed.

(** X11: every batch answer that carries insights has status 200, a
    [processed_count] equal to the number of insights, and at most one
    insight per item of [companies], in the order of the items; the count
    equals the number of items exactly when no item failed. *)
Theorem batch_response_invariant envs data insights n :
  payload (batch_analysis envs data) = BatchBody insights n ->
  status (batch_analysis envs data) = 200 /\
  n = List.length insights /\
  exists companies items,
    py_get data "companies" (PyList []) = inr companies /\
    py_iter companies = inr items /\
    insights = insights_of (outcomes envs 0 items) /\
    (n <= List.length items)%nat /\
    (n = List.length items <->
     Forall (fun r => success r = true) (outcomes envs 0 items)).
Proof.
  unfold batch_analysis.
  destruct (py_get data "companies" (PyList [])) as [e|companies] eqn:G;
    [discriminate|]. cbn [bind].
  destruct (py_truthy companies); cbn [negb]; [|discriminate].
  destruct (py_iter companies) as [e|items] eqn:I; [discriminate|].
  cbn [bind ret payload status]. rewrite batch_loop_outcomes. cbn [app].
  intros [= <- <-]. split; [reflexivity|]. split; [reflexivity|].
  exists companies, items. repeat split; auto.
  - rewrite <- (outcomes_length float_of_str envs 0 items). apply insights_of_le.
  - intros H. apply insights_of_all.
    now rewrite (outcomes_length float_of_str envs 0 items).
  - intros H. apply insights_of_all in H.
    now rewrite (outcomes_length float_of_str envs 0 items) in H.
Qed.

(** The outcomes of two lists in a row. *)
Lemma outcomes_app envs i companies1 companies2 :
  outcomes envs i (companies1 ++ companies2)
  = (outcomes envs i companies1
     ++ outcomes envs (i + List.length companies1) companies2)%list.
Proof.
  revert i. induction companies1 as [|c cs IH]; intros i; cbn [app List.length].
  - now rewrite Nat.add_0_r.
  - replace (i + S (List.length cs))%nat with (S i + List.length cs)%nat by lia.
    simpl. now rewrite IH.
Qed.

(** Numbering the calls from [k] on. *)
Lemma outcomes_shift envs k i companies :
  outcomes (fun j => envs (k + j)%nat) i companies = outcomes envs (k + i) companies.
Proof.
  revert i. induction companies as [|c cs IH]; intros i; simpl; [reflexivity|].
  rewrite IH. now rewrite Nat.add_succ_r.
Qed.

(** The answer to a list of companies that is not empty. *)
Lemma batch_analysis_of_list envs company companies :
  batch_analysis envs (PyDict [("companies", PyList (company :: companies))])
  = {| status := 200;
       payload := BatchBody (insights_of (outcomes envs 0 (company :: companies)))
                    (List.length (insights_of (outcomes envs 0 (company :: companies)))) |}.
Proof.
  unfold batch_analysis.
  cbn [py_get assoc String.eqb Ascii.eqb Bool.eqb bind ret py_truthy negb py_iter].
  rewrite batch_loop_outcomes. reflexivity.
Qed.

(** X12: a batch can be cut in two.  When the first part and the second
    part are each answered with insights, the whole list is answered with
    the insights of the first part followed by those of the second, and its
    [processed_count] is the sum of theirs (the second part drawing what
    the whole draws for its items). *)
Theorem batch_of_concatenation envs companies1 companies2 insights1 n1 insights2 n2 :
  payload (batch_analysis envs (PyDict [("companies", PyList companies1)]))
  = BatchBody insights1 n1 ->
  payload (batch_analysis (fun i => envs (List.length companies1 + i)%nat)
             (PyDict [("companies", PyList companies2)]))
  = BatchBody insights2 n2 ->
  batch_analysis envs (PyDict [("companies", PyList (companies1 ++ companies2))])
  = {| status := 200; payload := BatchBody (insights1 ++ insights2) (n1 + n2) |}.
Proof.
  destruct companies1 as [|c1 cs1]; [discriminate|].
  destruct companies2 as [|c2 cs2]; [discriminate|].
  rewrite !batch_analysis_of_list. cbn [payload]. intros H1 H2.
  set (k := List.length (c1 :: cs1)) in *.
  assert (E1 : insights1 = insights_of (outcomes envs 0 (c1 :: cs1))) by congruence.
  assert (E2 : insights2
               = insights_of (outcomes (fun i => envs (k + i)%nat) 0 (c2 :: cs2)))
    by congruence.
  assert (N1 : n1 = List.length insights1) by congruence.
  assert (N2 : n2 = List.length insights2) by congruence.
  rewrite N1, N2, <- length_app, E1, E2. clear H1 H2 E1 E2 N1 N2.
  change ((c1 :: cs1) ++ c2 :: cs2)%list with (c1 :: (cs1 ++ c2 :: cs2))%list.
  rewrite batch_analysis_of_list.
  change (c1 :: (cs1 ++ c2 :: cs2))%list with ((c1 :: cs1) ++ c2 :: cs2)%list.
  rewrite outcomes_app, insights_of_app, outcomes_shift, !Nat.add_0_r.
  reflexivity.
Qed.

(** X13: a batch of one against [/ai/insight].  An insight the endpoint
    answers with 200 is the one insight of the batch; a failure it answers
    with 500 is an empty batch answered 200; and the empty object, which
    the endpoint rejects with 400, is analysed in a batch with every
    default. *)
Theorem batch_of_one_and_insight_endpoint envs company :
  let data := PyDict [("companies", PyList [company])] in
  (forall insight,
      generate_insight (envs 0%nat) company
      = {| status := 200; payload := InsightBody insight |} ->
      batch_analysis envs data
      = {| status := 200; payload := BatchBody [insight] 1 |}) /\
  (status (generate_insight (envs 0%nat) company) = 500 ->
   batch_analysis envs data = {| status := 200; payload := BatchBody [] 0 |}) /\
  (company = PyDict [] ->
   status (generate_insight (envs 0%nat) company) = 400 /\
   exists insight,
     batch_analysis envs data = {| status := 200; payload := BatchBody [insight] 1 |} /\
     company_id insight = PyInt 1 /\
     symbol insight = PyStr "UNKNOWN" /\
     py_int (clamped_confidence (np_normal (envs 0%nat) 75 10)
               (sector_profile (PyStr "Technology")) (100 / 100))
     = inr (confidence_score insight)).
Proof.
  cbv zeta.
  assert (B : batch_analysis envs (PyDict [("companies", PyList [company])])
              = {| status := 200;
                   payload := BatchBody
                     (insights_of [generate_company_insight (envs 0%nat) company])
                     (List.length
                        (insights_of [generate_company_insight (envs 0%nat) company])) |}).
  { unfold batch_analysis. cbn [py_get assoc String.eqb Ascii.eqb Bool.eqb bind ret
                                 py_truthy negb py_iter].
    rewrite batch_loop_outcomes. reflexivity. }
  split; [|split].
  - intros insight. unfold generate_insight.
    destruct (py_truthy company); cbn [negb]; [|discriminate].
    destruct (generate_company_insight (envs 0%nat) company) eqn:E; [|discriminate].
    intros [= ->]. rewrite B. reflexivity.
  - unfold generate_insight.
    destruct (py_truthy company); cbn [negb]; [|discriminate].
    destruct (generate_company_insight (envs 0%nat) company) eqn:E; [discriminate|].
    intros _. rewrite B. reflexivity.
  - intros ->. split; [reflexivity|].
    destruct (generate_company_insight_ok float_of_str (envs 0%nat) (PyDict [])
                (PyInt 100) 100 (PyStr "Technology") eq_refl eq_refl eq_refl eq_refl
                eq_refl) as (cid & sym & z & Hz & _ & Hi).
    rewrite B, Hi. eexists. split; [reflexivity|].
    pose proof Hi as Hi'. apply generate_company_insight_Success in Hi'.
    destruct Hi' as (cid' & sym' & raw & price & sector & z' & Hid & Hsym & _ & _ & _
                     & _ & _ & _ & _ & E).
    injection Hid as <-. injection Hsym as <-.
    rewrite E. cbn [company_id symbol confidence_score insight_of].
    split; [reflexivity|]. split; [reflexivity|].
    injection E as _ _ _ _ <- _. exact Hz.
Qed.

End MoreBatchProperties.

(** * More about the market sentiment *)

Lemma thousandths_thresholds_checked : thousandths_around_thresholds = true.
Proof. vm_compute. reflexivity. Qed.

Lemma thousandth_thresholds k :
  Zpos k <= 1000 ->
  (-0.3 <=? thousandth false k)%float = true /\
  (thousandth true k <=? 0.3)%float = true /\
  (Zpos k <= 300 -> (thousandth false k <=? 0.3)%float = true /\
                    (-0.3 <=? thousandth true k)%float = true) /\
  (300 <= Zpos k -> (0.3 <=? thousandth false k)%float = true /\
                    (thousandth true k <=? -0.3)%float = true).
Proof.
  intros H. pose proof thousandths_thresholds_checked as T.
  unfold thousandths_around_thresholds in T. rewrite forallb_forall in T.
  specialize (T (Pos.to_nat k)). rewrite Pos2Nat.id in T.
  assert (In (Pos.to_nat k) (seq 1 1000)) as I by (apply in_seq; lia).
  apply T in I. cbv zeta in I.
  apply andb_true_iff in I. destruct I as [I I4].
  apply andb_true_iff in I. destruct I as [I I3].
  apply andb_true_iff in I. destruct I as [I1 I2].
  split; [exact I1|]. split; [exact I2|]. split.
  - intros L. destruct (Nat.leb_spec (Pos.to_nat k) 300); [|lia].
    apply andb_true_iff in I3. exact I3.
  - intros L. destruct (Nat.leb_spec 300 (Pos.to_nat k)); [|lia].
    apply andb_true_iff in I4. exact I4.
Qed.

(** A rounded quotient is at least [n] above [n - 1/2] and at most [n]
    below [n + 1/2]. *)
Lemma rne_div_ge a b n : 0 < b -> (2 * n - 1) * b < 2 * a -> n <= rne_div a b.
Proof.
  intros Hb H. unfold rne_div.
  pose proof (Z.div_mod a b ltac:(lia)) as D.
  pose proof (Z.mod_pos_bound a b Hb) as M.
  destruct (Z.compare_spec (2 * (a mod b)) b) as [C|C|C];
    [destruct (Z.even (a / b))| |]; nia.
Qed.

Lemma rne_div_le a b n : 0 < b -> 2 * a < (2 * n + 1) * b -> rne_div a b <= n.
Proof.
  intros Hb H. unfold rne_div.
  pose proof (Z.div_mod a b ltac:(lia)) as D.
  pose proof (Z.mod_pos_bound a b Hb) as M.
  destruct (Z.compare_spec (2 * (a mod b)) b) as [C|C|C];
    [destruct (Z.even (a / b))| |]; nia.
Qed.

(** [round(x, 3)] of a finite number with a negative exponent. *)
Lemma py_round_3_finite x s m e :
  Prim2SF x = S754_finite s m e -> e < 0 ->
  py_round x 3 = signed_thousandth s (rne_div (Zpos m * 1000) (2 ^ (- e))).
Proof.
  intros E He. unfold py_round. rewrite E.
  destruct (Z.leb_spec 0 e); [lia|]. reflexivity.
Qed.

(** A finite number strictly between -1 and 1 has an exponent of at most
    -53. *)
Lemma below_one_exponent x s m e :
  (-1 <? x)%float = true -> (x <? 1)%float = true ->
  Prim2SF x = S754_finite s m e -> e <= -53.
Proof.
  intros Lo Hi E.
  destruct (finite_bounds _ _ _ _ E) as (Hm & He & Hn).
  rewrite ltb_spec, E, SF_1 in Hi. rewrite ltb_spec, E, SF_m1 in Lo.
  assert (P52 : 2 ^ 52 = 4503599627370496) by reflexivity.
  destruct s.
  - apply SFltb_finite_neg in Lo. lia.
  - apply SFltb_finite_pos in Hi. lia.
Qed.

(** The shape of a clamped sentiment score: 1, -1, a zero, or a finite
    number with an exponent of at most -53. *)
Lemma clamped_sentiment_shape x :
  let c := py_max (-1) (py_min 1 x) in
  c = 1%float \/ c = (-1)%float \/
  (exists s, Prim2SF c = S754_zero s) \/
  (exists s m e, Prim2SF c = S754_finite s m e /\ e <= -53 /\ Zpos m < 2 ^ 53).
Proof.
  cbv zeta.
  destruct (clamped_sentiment_cases x) as [->|[->|(-> & A & B)]]; auto.
  right. right.
  destruct (Prim2SF x) as [s|s| |s m e] eqn:E.
  - left. eauto.
  - exfalso. rewrite ltb_spec, E, SF_1 in B. rewrite ltb_spec, E, SF_m1 in A.
    destruct s; discriminate.
  - exfalso. rewrite ltb_spec, E, SF_1 in B. discriminate.
  - right. exists s, m, e. split; [reflexivity|].
    split; [eapply below_one_exponent; eauto|].
    apply (finite_bounds _ _ _ _ E).
Qed.

Lemma SFltb_finite_neg_false m1 e1 m2 e2 :
  SFltb (S754_finite true m1 e1) (S754_finite true m2 e2) = false <->
  e1 < e2 \/ (e1 = e2 /\ Zpos m1 <= Zpos m2).
Proof.
  pose proof (SFltb_finite_neg m1 e1 m2 e2) as [H1 H2].
  destruct (SFltb _ _); split; intros G; try discriminate; try reflexivity.
  - specialize (H1 eq_refl). lia.
  - assert (~ (e2 < e1 \/ e1 = e2 /\ Z.pos m2 < Z.pos m1)) as N.
    { intros K. specialize (H2 K). discriminate. }
    lia.
Qed.

(** The rounded score lies on the same side of each threshold as the
    clamped score, the threshold itself included. *)
Lemma rounded_sentiment_thresholds x :
  let c := py_max (-1) (py_min 1 x) in
  ((0.3 <? c)%float = true -> (0.3 <=? py_round c 3)%float = true) /\
  ((0.3 <? c)%float = false -> (py_round c 3 <=? 0.3)%float = true) /\
  ((-0.3 <? c)%float = true -> (-0.3 <=? py_round c 3)%float = true) /\
  ((-0.3 <? c)%float = false -> (py_round c 3 <=? -0.3)%float = true).
Proof.
  cbv zeta.
  destruct (clamped_sentiment_shape x) as [->|[->|[[s E]|(s & m & e & E & He & Hm)]]].
  - vm_compute. intuition discriminate.
  - vm_compute. intuition discriminate.
  - set (c := py_max (-1) (py_min 1 x)) in *.
    assert (R : py_round c 3 = c) by (unfold py_round; now rewrite E).
    rewrite R, !ltb_spec, !leb_spec, E, SF_03, SF_m03.
    destruct s; vm_compute; intuition discriminate.
  - set (c := py_max (-1) (py_min 1 x)) in *.
    rewrite (py_round_3_finite c s m e E ltac:(lia)).
    destruct (finite_bounds _ _ _ _ E) as (_ & Hlo & Hn).
    assert (P52 : 2 ^ 52 = 4503599627370496) by reflexivity.
    assert (P53 : 2 ^ 53 = 9007199254740992) by reflexivity.
    assert (Hp : 2 ^ 53 <= 2 ^ (- e)) by (apply Z.pow_le_mono_r; lia).
    assert (Hp' : e < -54 -> 2 * 2 ^ 54 <= 2 ^ (- e)).
    { intros L. change (2 * 2 ^ 54) with (2 ^ 55). apply Z.pow_le_mono_r; lia. }
    assert (P54 : 2 ^ 54 = 18014398509481984) by reflexivity.
    assert (E53 : e = -53 -> 2 ^ (- e) = 9007199254740992) by (intros ->; reflexivity).
    assert (E54 : e = -54 -> 2 ^ (- e) = 18014398509481984) by (intros ->; reflexivity).
    pose proof (rne_div_bounds (Zpos m * 1000) (2 ^ (- e)) 1000 ltac:(lia) ltac:(nia))
      as K.
    set (k := rne_div (Zpos m * 1000) (2 ^ (- e))) in *.
    assert (GE : -54 < e \/ (e = -54 /\ 5404319552844595 <= Zpos m) -> 300 <= k).
    { intros C. apply rne_div_ge; [lia|].
      destruct C as [C|[C1 C2]].
      - assert (e = -53) as Q by lia. specialize (Hn ltac:(lia)). rewrite (E53 Q). lia.
      - rewrite (E54 C1). lia. }
    assert (LE : e < -54 \/ (e = -54 /\ Zpos m <= 5404319552844595) -> k <= 300).
    { intros C. apply rne_div_le; [lia|].
      destruct C as [C|[C1 C2]].
      - specialize (Hp' C). lia.
      - rewrite (E54 C1). lia. }
    rewrite !ltb_spec, E, SF_03, SF_m03.
    destruct s.
    + (* a negative score *)
      rewrite SFltb_finite_neg, SFltb_finite_neg_false.
      split; [discriminate|]. split.
      { intros _. destruct k as [|k'|k']; [reflexivity| |lia].
        apply (thousandth_thresholds k'). lia. }
      split.
      * intros C. assert (k <= 300) as L by (apply LE; lia).
        destruct k as [|k'|k']; [reflexivity| |lia].
        apply (thousandth_thresholds k'); lia.
      * intros C. assert (300 <= k) as L by (apply GE; lia).
        destruct k as [|k'|k']; [lia| |lia].
        apply (thousandth_thresholds k'); lia.
    + (* a positive score *)
      rewrite SFltb_finite_pos, SFltb_finite_pos_false.
      split.
      { intros C. assert (300 <= k) as L by (apply GE; lia).
        destruct k as [|k'|k']; [lia| |lia].
        apply (thousandth_thresholds k'); lia. }
      split.
      { intros C. assert (k <= 300) as L by (apply LE; lia).
        destruct k as [|k'|k']; [reflexivity| |lia].
        apply (thousandth_thresholds k'); lia. }
      split; [|discriminate].
      intros _. destruct k as [|k'|k']; [reflexivity| |lia].
      apply (thousandth_thresholds k'). lia.
Qed.

(** X14: the label never contradicts the score that is sent with it by
    more than the rounding: a Bullish reading has a score of at least 0.3,
    a Neutral one a score between -0.3 and 0.3, a Bearish one a score of at
    most -0.3. *)
Theorem sentiment_label_bounds_returned_score env :
  exists reading,
    payload (market_sentiment env) = SentimentBody reading /\
    (sentiment reading = Bullish -> (0.3 <=? score reading)%float = true) /\
    (sentiment reading = Neutral ->
     (-0.3 <=? score reading)%float = true /\ (score reading <=? 0.3)%float = true) /\
    (sentiment reading = Bearish -> (score reading <=? -0.3)%float = true).
Proof.
  unfold market_sentiment. cbn [payload]. eexists. split; [reflexivity|].
  cbn [sentiment score].
  destruct (rounded_sentiment_thresholds (np_normal env 0.6 0.2)) as (A & B & C & D).
  set (c := py_max (-1) (py_min 1 (np_normal env 0.6 0.2))) in *.
  unfold py_gt.
  destruct (0.3 <? c)%float eqn:H3; [|destruct (-0.3 <? c)%float eqn:Hm3];
    cbn [fst]; repeat split; intros; try discriminate; auto.
Qed.

(** X15: the score that is sent has at most three decimals: it is the
    binary64 nearest to [k / 1000] or to [- k / 1000] for a whole number
    [k] from 0 to 1000. *)
Theorem sentiment_score_has_three_decimals env :
  exists reading,
    payload (market_sentiment env) = SentimentBody reading /\
    exists (s : bool) (k : Z),
      0 <= k <= 1000 /\ score reading = signed_thousandth s k.
Proof.
  unfold market_sentiment. cbn [payload]. eexists. split; [reflexivity|].
  cbn [score].
  destruct (clamped_sentiment_shape (np_normal env 0.6 0.2))
    as [C|[C|[[s E]|(s & m & e & E & He & Hm)]]];
    set (c := py_max (-1) (py_min 1 (np_normal env 0.6 0.2))) in *.
  - exists false, 1000. split; [lia|]. rewrite C. vm_compute. reflexivity.
  - exists true, 1000. split; [lia|]. rewrite C. vm_compute. reflexivity.
  - exists s, 0. split; [lia|].
    assert (R : py_round c 3 = c) by (unfold py_round; now rewrite E).
    rewrite R. apply Prim2SF_inj. rewrite E. destruct s; reflexivity.
  - exists s, (rne_div (Zpos m * 1000) (2 ^ (- e))). split.
    + assert (P53 : 2 ^ 53 = 9007199254740992) by reflexivity.
      assert (Hp : 2 ^ 53 <= 2 ^ (- e)) by (apply Z.pow_le_mono_r; lia).
      apply rne_div_bounds; [lia|nia].
    + apply py_round_3_finite; [exact E|lia].
Qed.

(** * The further properties at sample requests *)

(** The engine's answer to the E-commerce company. *)
Lemma ecommerce_company_insight :
  generate_company_insight sample_parser sample_env ecommerce_company
  = Success ecommerce_insight.
Proof. vm_compute. reflexivity. Qed.

Lemma recommendation_determined_by_sector_witness :
  generate_company_insight sample_parser sample_env ecommerce_company
  = Success ecommerce_insight /\
  recommendation ecommerce_insight = BUY.
Proof.
  split; [exact ecommerce_company_insight|].
  destruct (recommendation_determined_by_sector sample_parser sample_env
              ecommerce_company ecommerce_insight ecommerce_company_insight)
    as (sector & price & S & (raw & G & F) & TE & _ & _).
  injection S as <-. injection G as <-. injection F as <-.
  rewrite TE; [reflexivity|right; reflexivity].
Defined.

Lemma reported_confidence_agrees_with_recommendation_witness :
  generate_company_insight sample_parser sample_env ecommerce_company
  = Success ecommerce_insight /\
  recommendation ecommerce_insight = BUY /\
  80 <= confidence_score ecommerce_insight.
Proof.
  split; [exact ecommerce_company_insight|]. split; [reflexivity|].
  exact (proj1 (reported_confidence_agrees_with_recommendation sample_parser
                  sample_env ecommerce_company ecommerce_insight
                  ecommerce_company_insight) eq_refl).
Defined.

Lemma key_factors_are_the_whole_pool_witness :
  valid_env sample_env /\
  generate_company_insight sample_parser sample_env sample_company
  = Success sample_insight /\
  Permutation (key_factors sample_insight) (sector_pool (PyStr "Finance")) /\
  List.length (key_factors sample_insight) = 5%nat.
Proof.
  split; [exact sample_env_valid|]. split; [exact sample_company_insight|].
  destruct (key_factors_are_the_whole_pool sample_parser sample_env sample_company
              sample_insight sample_env_valid sample_company_insight)
    as (sector & S & P & L & _).
  injection S as <-. split; [exact P|exact L].
Defined.

Lemma ecommerce_scored_by_own_row_with_default_factors_witness :
  valid_env sample_env /\
  generate_company_insight sample_parser sample_env ecommerce_company
  = Success ecommerce_insight /\
  py_get ecommerce_company "sector" (PyStr "Technology") = inr (PyStr "E-commerce") /\
  Permutation (key_factors ecommerce_insight) default_pool.
Proof.
  split; [exact sample_env_valid|]. split; [exact ecommerce_company_insight|].
  split; [reflexivity|].
  exact (proj1 (proj2 (ecommerce_scored_by_own_row_with_default_factors sample_parser
                         sample_env ecommerce_company ecommerce_insight
                         sample_env_valid ecommerce_company_insight eq_refl))).
Defined.

Lemma nan_and_infinite_prices_are_scored_witness :
  py_get nan_priced_company "current_price" (PyInt 100) = inr (PyFloat nan) /\
  py_float sample_parser (PyFloat nan) = inr nan /\
  py_get nan_priced_company "sector" (PyStr "Technology") = inr (PyStr "Technology") /\
  hashable (PyStr "Technology") = true /\
  is_nan nan = true /\
  exists insight,
    generate_company_insight sample_parser sample_env nan_priced_company
    = Success insight /\
    confidence_score insight = 95.
Proof.
  do 5 (split; [reflexivity|]).
  destruct (nan_and_infinite_prices_are_scored sample_parser sample_env
              nan_priced_company (PyFloat nan) nan (PyStr "Technology")
              eq_refl eq_refl eq_refl eq_refl (or_introl eq_refl))
    as (insight & Hi & Hc).
  exists insight. split; [exact Hi|].
  match type of Hc with
  | ?l = _ => assert (E : l = inr 95) by (vm_compute; reflexivity); rewrite E in Hc
  end.
  now injection Hc.
Defined.

Lemma narrative_matches_recommendation_witness :
  generate_company_insight sample_parser sample_env sample_company
  = Success sample_insight /\
  insight_text sample_insight
  = insight_templates (PyStr "ACME") (PyStr "Finance") WATCH.
Proof.
  split; [exact sample_company_insight|].
  destruct (narrative_matches_recommendation sample_parser sample_env sample_company
              sample_insight sample_company_insight) as (sector & S & T & _).
  injection S as <-. exact T.
Defined.

Lemma batch_response_invariant_witness :
  let data := PyDict [("companies", PyList [sample_company; malformed_company])] in
  payload (batch_analysis sample_parser (fun _ => sample_env) data)
  = BatchBody [sample_insight] 1 /\
  status (batch_analysis sample_parser (fun _ => sample_env) data) = 200 /\
  1%nat = List.length [sample_insight].
Proof.
  cbv zeta.
  assert (H : payload (batch_analysis sample_parser (fun _ => sample_env)
                         (PyDict [("companies",
                                   PyList [sample_company; malformed_company])]))
              = BatchBody [sample_insight] 1) by (vm_compute; reflexivity).
  split; [exact H|].
  destruct (batch_response_invariant sample_parser (fun _ => sample_env) _ _ _ H)
    as (S & N & _).
  split; [exact S|exact N].
Defined.

Lemma batch_of_concatenation_witness :
  let envs := fun _ : nat => sample_env in
  payload (batch_analysis sample_parser envs
             (PyDict [("companies", PyList [sample_company])]))
  = BatchBody [sample_insight] 1 /\
  payload (batch_analysis sample_parser envs
             (PyDict [("companies", PyList [malformed_company; ecommerce_company])]))
  = BatchBody [ecommerce_insight] 1 /\
  batch_analysis sample_parser envs
    (PyDict [("companies",
              PyList [sample_company; malformed_company; ecommerce_company])])
  = {| status := 200; payload := BatchBody [sample_insight; ecommerce_insight] 2 |}.
Proof.
  cbv zeta.
  assert (H1 : payload (batch_analysis sample_parser (fun _ => sample_env)
                          (PyDict [("companies", PyList [sample_company])]))
               = BatchBody [sample_insight] 1) by (vm_compute; reflexivity).
  assert (H2 : payload (batch_analysis sample_parser
                          (fun i => (fun _ : nat => sample_env)
                                      (List.length [sample_company] + i)%nat)
                          (PyDict [("companies",
                                    PyList [malformed_company; ecommerce_company])]))
               = BatchBody [ecommerce_insight] 1) by (vm_compute; reflexivity).
  split; [exact H1|]. split; [exact H2|].
  exact (batch_of_concatenation sample_parser (fun _ => sample_env)
           [sample_company] [malformed_company; ecommerce_company]
           [sample_insight] 1 [ecommerce_insight] 1 H1 H2).
Defined.
